(** * BoardGameMechanicsAnalyser (src/main.py): a shallow embedding

    The analyser loads a table of board games with pandas, asks a
    generative model how many of a game's listed mechanics apply, and
    aggregates the answers.  This file embeds the four methods of the class
    and the Python and pandas operations they call, and states the
    properties of the specification over them.

    Conventions.
    - A Python [str] is a [string] whose characters are code points below
      U+0100: the character [c] is the code point [nat_of_ascii c].  The
      operations on strings are those of Python on these code points (the
      whitespace of [str.strip] includes U+0085 and U+00A0; the only
      decimal digits are [0] to [9]).  A [str] with a code point from
      U+0100 on, such as a full-width digit, has no counterpart here, and
      a statement that depends on how characters outside ASCII are read
      says that its text is ASCII.
    - A Python [int] is a [Z].  A Python [float] is a [Py.float], an IEEE
      754 double given by its sign, significand and exponent: the true
      division [a / b] of two ints is the double nearest to the quotient,
      or [OverflowError].  A number held in a table cell is a [Q]: the
      exact value of the int or of the finite float.
    - An exception is a value of [exn]; a computation that can raise returns
      a [result]. *)

From Stdlib Require Import ZArith QArith Ascii Lia.
From stdpp Require Import base option list gmap strings pretty sorting.

Close Scope Q_scope.
Local Open Scope Z_scope.

(** ** Exceptions and results *)

Inductive exn :=
| FileNotFoundError (msg : string)
| ValueError (msg : string)
| AttributeError (msg : string)
| KeyError (key : string)
| TypeError (msg : string)
| ZeroDivisionError
| OverflowError (msg : string)
| OtherException (name : string).

Inductive result (A : Type) :=
| Ok (a : A)
| Err (e : exn).
Arguments Ok {A} a.
Arguments Err {A} e.

(** ** Python strings *)

Module Py.

(** [c.isspace()], the whitespace that [str.strip] removes.  Below U+0100
    it is TAB, LF, VT, FF, CR, the four separators FS GS RS US, the space,
    NEL (U+0085) and the no-break space (U+00A0). *)
Definition isspace (c : ascii) : bool :=
  let n := nat_of_ascii c in
  ((9 <=? n) && (n <=? 13) || (28 <=? n) && (n <=? 32) || (n =? 133) || (n =? 160))%nat.

(** [c.isdecimal()], the characters that [int] reads as digits.  Below
    U+0100 these are [0] to [9] (the superscripts U+00B2, U+00B3 and U+00B9
    are digits for [str.isdigit] and not for [int]). *)
Definition isdecimal (c : ascii) : bool :=
  let n := nat_of_ascii c in ((48 <=? n) && (n <=? 57))%nat.


Definition digit_value (c : ascii) : Z := Z.of_nat (nat_of_ascii c) - 48.

Fixpoint lstrip (s : string) : string :=
  match s with
  | EmptyString => EmptyString
  | String c s' => if isspace c then lstrip s' else s
  end.

Fixpoint rstrip (s : string) : string :=
  match s with
  | EmptyString => EmptyString
  | String c s' =>
      match rstrip s' with
      | EmptyString => if isspace c then EmptyString else String c EmptyString
      | r => String c r
      end
  end.

(** [s.strip()] *)
Definition strip (s : string) : string := lstrip (rstrip s).

(** The whitespace that [int] skips around a literal: that of
    [str.isspace] without the four separators FS GS RS US. *)
Definition int_space (c : ascii) : bool :=
  let n := nat_of_ascii c in
  ((9 <=? n) && (n <=? 13) || (n =? 32) || (n =? 133) || (n =? 160))%nat.

Fixpoint skip_space (s : string) : string :=
  match s with
  | EmptyString => EmptyString
  | String c s' => if int_space c then skip_space s' else s
  end.

Fixpoint only_space (s : string) : bool :=
  match s with
  | EmptyString => true
  | String c s' => int_space c && only_space s'
  end.

(** An optional sign in front of the digits: whether it is a minus, and
    what follows it. *)
Definition sign (s : string) : bool * string :=
  match s with
  | String "+"%char r => (false, r)
  | String "-"%char r => (true, r)
  | _ => (false, s)
  end.

(** The digits of an integer literal: the longest run of decimal digits
    and underscores at the start of [s], where single underscores may
    separate two digits.  The result is the value of the run, the number of
    its digits, and the rest of [s]; there is none when the run is empty,
    starts or ends with an underscore, or has two underscores in a row.
    [prev] records that the previous character was a digit. *)
Fixpoint scan_digits (acc n : Z) (prev : bool) (s : string) : option (Z * Z * string) :=
  match s with
  | EmptyString => if prev then Some (acc, n, EmptyString) else None
  | String c s' =>
      if isdecimal c then scan_digits (10 * acc + digit_value c) (n + 1) true s'
      else if Ascii.eqb c "_"%char then (if prev then scan_digits acc n false s' else None)
      else if prev then Some (acc, n, s) else None
  end.

(** [sys.get_int_max_str_digits()], as the interpreter starts. *)
Definition int_max_str_digits : Z := 4300.

(** [int(s)] for a string [s]: whitespace, an optional sign, the digits,
    whitespace; anything else raises [ValueError].  So does a literal of
    more than 4300 digits, and this is found before what follows the
    digits is looked at. *)
Definition int (s : string) : result Z :=
  let invalid := ValueError ("invalid literal for int() with base 10: '" +:+ s +:+ "'") in
  let literal := sign (skip_space s) in
  match scan_digits 0 0 false literal.2 with
  | None => Err invalid
  | Some (z, n, rest) =>
      if int_max_str_digits <? n
      then Err (ValueError ("Exceeds the limit (4300 digits) for integer string conversion: "
                            +:+ "value has " +:+ pretty n
                            +:+ " digits; use sys.set_int_max_str_digits() to increase the limit"))
      else if only_space rest then Ok (if literal.1 then - z else z)
      else Err invalid
  end.

(** [s.split(c)] for a one-character separator: never empty. *)
Fixpoint split (sep : ascii) (s : string) : list string :=
  match s with
  | EmptyString => [EmptyString]
  | String c s' =>
      if Ascii.eqb c sep then EmptyString :: split sep s'
      else match split sep s' with
           | h :: t => String c h :: t
           | [] => [String c EmptyString]
           end
  end.

(** [s.count(c)] for a one-character pattern. *)
Fixpoint count (pat : ascii) (s : string) : Z :=
  match s with
  | EmptyString => 0
  | String c s' => (if Ascii.eqb c pat then 1 else 0) + count pat s'
  end.

(** [s.replace(old, new)] for a non-empty [old]: the occurrences are found
    from the left and do not overlap.  [skip] counts the characters of a
    matched occurrence that are still to be dropped. *)
Fixpoint replace_from (old new : string) (skip : nat) (s : string) : string :=
  match s with
  | EmptyString => EmptyString
  | String c s' =>
      match skip with
      | S k => replace_from old new k s'
      | O =>
          if String.prefix old s
          then new +:+ replace_from old new (String.length old - 1) s'
          else String c (replace_from old new O s')
      end
  end.

Definition replace (old new s : string) : string := replace_from old new O s.

(** [l[:k]]: a negative [k] counts from the end of the list. *)
Definition slice_to {A} (k : Z) (l : list A) : list A :=
  if k <? 0 then take (Z.to_nat (Z.of_nat (length l) + k)) l
  else take (Z.to_nat k) l.

(** A [float]: an IEEE 754 double.  [Finite s m e] is the number
    [(-1)^s * m * 2^e], with [2^52 <= m < 2^53] and [-1074 <= e <= 971]
    for a normal number, [m < 2^52] and [e = -1074] for a subnormal one and
    for the two zeros. *)
Inductive float :=
| Finite (negative : bool) (m e : Z)
| Infinity (negative : bool)
| NotANumber.

Definition zero (negative : bool) : float := Finite negative 0 (-1074).

(** The integer nearest to [n / d], the even one of two that are equally
    near ([0 <= n], [0 < d]). *)
Definition round_half_even (n d : Z) : Z :=
  let q := n / d in
  let r := 2 * (n mod d) in
  if r <? d then q
  else if d <? r then q + 1
  else if Z.even q then q else q + 1.

(** [2^e <= n / d], for [0 < d]. *)
Definition pow2_le (e n d : Z) : bool :=
  if 0 <=? e then d * 2 ^ e <=? n else d <=? n * 2 ^ (- e).

(** The double nearest to the rational [n / d], for [0 < n] and [0 < d],
    as its significand and exponent, rounding to nearest and ties to even
    as the hardware does.  The exponent is that of the last place of the
    quotient, [floor (log2 (n / d)) - 52], and not below [-1074]; a
    significand that rounds up to [2^53] moves to the next exponent.  The
    result is out of range when the exponent is above 971. *)
Definition nearest_double (n d : Z) : Z * Z :=
  let e0 := Z.log2 n - Z.log2 d in
  let e1 := if pow2_le e0 n d then e0 else e0 - 1 in
  let e := Z.max (e1 - 52) (-1074) in
  let m := if 0 <=? e then round_half_even n (d * 2 ^ e)
           else round_half_even (n * 2 ^ (- e)) d in
  if m =? 2 ^ 53 then (2 ^ 52, e + 1) else (m, e).

(** [a / b] on ints: the correctly rounded quotient.  A zero result takes
    the sign of the operands ([0 / -5] is [-0.0]). *)
Definition truediv (a b : Z) : result float :=
  if b =? 0 then Err ZeroDivisionError
  else
    let negative := xorb (a <? 0) (b <? 0) in
    if a =? 0 then Ok (zero negative)
    else
      let me := nearest_double (Z.abs a) (Z.abs b) in
      if 971 <? me.2
      then Err (OverflowError "integer division result too large for a float")
      else Ok (Finite negative me.1 me.2).

(** [float(z)] for an int, as an arithmetic operator converts its int
    operand. *)
Definition float_of_int (z : Z) : result float :=
  if z =? 0 then Ok (zero false)
  else
    let me := nearest_double (Z.abs z) 1 in
    if 971 <? me.2 then Err (OverflowError "int too large to convert to float")
    else Ok (Finite (z <? 0) me.1 me.2).

(** [x * y] on floats: the product rounded to the nearest double; a
    product out of range is an infinity, and nothing is raised. *)
Definition mul (x y : float) : float :=
  match x, y with
  | Finite s1 m1 e1, Finite s2 m2 e2 =>
      if (m1 =? 0) || (m2 =? 0) then zero (xorb s1 s2)
      else
        let e := e1 + e2 in
        let me := if 0 <=? e then nearest_double (m1 * m2 * 2 ^ e) 1
                  else nearest_double (m1 * m2) (2 ^ (- e)) in
        if 971 <? me.2 then Infinity (xorb s1 s2) else Finite (xorb s1 s2) me.1 me.2
  | Finite s1 m1 _, Infinity s2 | Infinity s1, Finite s2 m1 _ =>
      if m1 =? 0 then NotANumber else Infinity (xorb s1 s2)
  | Infinity s1, Infinity s2 => Infinity (xorb s1 s2)
  | _, _ => NotANumber
  end.

(** [sorted(l)] with the order [le]: Python's list sort is stable.  An
    element is put in front of the first element that it does not exceed,
    and the elements are inserted from the right. *)
Fixpoint insert_sorted {A} (le : A -> A -> bool) (x : A) (l : list A) : list A :=
  match l with
  | [] => [x]
  | y :: l' => if le x y then x :: l else y :: insert_sorted le x l'
  end.

Definition sorted {A} (le : A -> A -> bool) (l : list A) : list A :=
  foldr (insert_sorted le) [] l.

End Py.

(** ** [collections.Counter]

    A Counter is a dict, and a dict keeps its keys in insertion order:
    [most_common] breaks ties by that order, so the model is an association
    list. *)

Module Counter.

Definition t := list (string * nat).

Fixpoint incr (k : string) (c : t) : t :=
  match c with
  | [] => [(k, 1%nat)]
  | (k', n) :: c' =>
      if bool_decide (k = k') then (k', S n) :: c' else (k', n) :: incr k c'
  end.

(** [c.update(iterable)] *)
Definition update (xs : list string) (c : t) : t :=
  fold_left (fun c x => incr x c) xs c.

Definition keys (c : t) : list string := c.*1.

(** [c.most_common()]: [sorted(c.items(), key=itemgetter(1), reverse=True)] *)
Definition most_common_all (c : t) : list (string * nat) :=
  Py.sorted (fun a b => (b.2 <=? a.2)%nat) c.

(** [c.most_common(n)] *)
Definition most_common (n : nat) (c : t) : list (string * nat) :=
  take n (most_common_all c).

End Counter.

(** ** Table cells and pandas *)

(** A value of a table cell or of a record: missing ([NaN]), a number, or a
    string. *)
Inductive cell :=
| NaN
| Num (q : Q)
| Str (s : string).

(** A record as [to_dict(orient='records')] returns it. *)
Abbreviation dict := (gmap string cell).

Module pd.

Record DataFrame := {
  columns : list string;
  rows : list (list cell)
}.

(** Position of a column label. *)
Fixpoint get_loc (c : string) (cols : list string) : option nat :=
  match cols with
  | [] => None
  | c' :: cs => if bool_decide (c = c') then Some O else S <$> get_loc c cs
  end.

(** The value of row [r] in column [c]. *)
Definition at_ (cols : list string) (r : list cell) (c : string) : cell :=
  match get_loc c cols with
  | Some i => default NaN (r !! i)
  | None => NaN
  end.

Definition isna (v : cell) : bool :=
  match v with NaN => true | _ => false end.

(** Elementwise [v != z] for an int [z]: a missing value and a string differ
    from every number. *)
Definition ne (v : cell) (z : Z) : bool :=
  match v with
  | Num q => negb (Qeq_bool q (inject_Z z))
  | _ => true
  end.

(** Elementwise [v == s] for a str [s]. *)
Definition eq_str (v : cell) (s : string) : bool :=
  match v with
  | Str t => bool_decide (t = s)
  | _ => false
  end.

(** [df[c]]: the column as the list of its values. *)
Definition getitem (df : DataFrame) (c : string) : result (list cell) :=
  if bool_decide (c ∈ columns df)
  then Ok (map (fun r => at_ (columns df) r c) (rows df))
  else Err (KeyError c).

(** [df[mask]] for a boolean column [mask]. *)
Fixpoint select {A} (mask : list bool) (l : list A) : list A :=
  match mask, l with
  | b :: mask', x :: l' => if b then x :: select mask' l' else select mask' l'
  | _, _ => []
  end.

Definition loc (mask : list bool) (df : DataFrame) : DataFrame :=
  {| columns := columns df; rows := select mask (rows df) |}.

(** [df.dropna(subset=cols)]: the rows with no missing value in [cols]. *)
Definition dropna (subset : list string) (df : DataFrame) : DataFrame :=
  {| columns := columns df;
     rows := List.filter
               (fun r => forallb (fun c => negb (isna (at_ (columns df) r c))) subset)
               (rows df) |}.

Definition empty (df : DataFrame) : bool :=
  match rows df with [] => true | _ => false end.

(** [df.head(n)] *)
Definition head (n : nat) (df : DataFrame) : DataFrame :=
  {| columns := columns df; rows := take n (rows df) |}.

(** [df.to_dict(orient='records')]: one new dict per row, built as
    [dict(zip(columns, row))], where a later pair wins. *)
Definition row_dict (cols : list string) (r : list cell) : dict :=
  list_to_map (reverse (zip cols r)).

Definition to_dict_records (df : DataFrame) : list dict :=
  map (row_dict (columns df)) (rows df).

(** [a <= b] where Python defines it: between two numbers, and between two
    strings (by code points). *)
Definition le (a b : cell) : bool :=
  match a, b with
  | Num p, Num q => Qle_bool p q
  | Str s, Str t => String.leb s t
  | _, _ => false
  end.

Definition is_num (v : cell) : bool := match v with Num _ => true | _ => false end.
Definition is_str (v : cell) : bool := match v with Str _ => true | _ => false end.

(** The values of a column can be compared with each other when they are
    all numbers or all strings. *)
Definition comparable (l : list cell) : bool :=
  forallb is_num l || forallb is_str l.

Section Sort.

(** The sort that [sort_values] uses when no [kind] is given (numpy's
    quicksort).  It is not stable: the library promises a sorted
    rearrangement and nothing about the order of equal keys. *)
Variable quicksort : forall A : Type, (A -> A -> bool) -> list A -> list A.

(** [df.sort_values(by=c, ascending=asc)] with the defaults
    [kind='quicksort'] and [na_position='last']: the rows with a key are
    sorted, the rows without one follow in their original order.  Keys
    that cannot be compared raise [TypeError]. *)
Definition sort_values (c : string) (ascending : bool) (df : DataFrame)
  : result DataFrame :=
  let present := List.filter (fun r => negb (isna (at_ (columns df) r c))) (rows df) in
  let missing := List.filter (fun r => isna (at_ (columns df) r c)) (rows df) in
  if comparable (map (fun r => at_ (columns df) r c) present) then
    Ok {| columns := columns df;
          rows := quicksort _
                    (fun r1 r2 =>
                       if ascending
                       then le (at_ (columns df) r1 c) (at_ (columns df) r2 c)
                       else le (at_ (columns df) r2 c) (at_ (columns df) r1 c))
                    present ++ missing |}
  else Err (TypeError "'<' not supported between instances of 'str' and 'float'").

End Sort.

End pd.

(** ** Computations that raise and mutate

    A statement sequence runs over a state [S] and either yields a value or
    raises; the state changes made before a raise stay. *)

Definition PyM (S A : Type) : Type := S -> result A * S.

Definition ret {S A} (a : A) : PyM S A := fun s => (Ok a, s).

Definition raise {S A} (e : exn) : PyM S A := fun s => (Err e, s).

Definition bind {S A B} (m : PyM S A) (k : A -> PyM S B) : PyM S B :=
  fun s =>
    match m s with
    | (Ok a, s') => k a s'
    | (Err e, s') => (Err e, s')
    end.

Notation "'let*' x := m 'in' k" := (bind m (fun x => k))
  (at level 10, x name, m at level 100, k at level 200).

Definition lift {S A} (r : result A) : PyM S A := fun s => (r, s).

Definition gets {S A} (f : S -> A) : PyM S A := fun s => (Ok (f s), s).

Definition modify {S} (f : S -> S) : PyM S unit := fun s => (Ok tt, f s).

(** [try: m except Exception as e: handler(e)] *)
Definition try_except {S A} (m : PyM S A) (handler : exn -> PyM S A) : PyM S A :=
  fun s =>
    match m s with
    | (Ok a, s') => (Ok a, s')
    | (Err e, s') => handler e s'
    end.

(** [for x in l: body(x)] *)
Fixpoint for_each {S A} (l : list A) (body : A -> PyM S unit) : PyM S unit :=
  match l with
  | [] => ret tt
  | x :: l' => let* _ := body x in for_each l' body
  end.

(** ** The analyser *)

(** What [print] writes, one constructor per format string of the source. *)
Inductive line :=
| Blank
| VerifyCount (game_name : string) (text : string)
| VerifyAccuracy (game_name : string) (accuracy : Py.float)
| Processed (game_name : cell) (applicable_mechanics : Z)
| ErrorProcessing (game_name : cell) (error : exn)
| TotalFound (total_applicable_mechanics : Z)
| GroundTruth (total_length_top_200 : Z)
| AverageCorrespondence (percent : Py.float)
| TopHeader
| LeastHeader
| NeverHeader
| Assigned (mechanic : string) (count : nat)
| Never (mechanic : string).

(** [d[k]] on a dict *)
Definition dict_getitem (d : dict) (k : string) : result cell :=
  match d !! k with
  | Some v => Ok v
  | None => Err (KeyError k)
  end.

(** The receiver of a [str] method: a cell that is not a string has no such
    attribute. *)
Definition as_str (v : cell) (method : string) : result string :=
  match v with
  | Str s => Ok s
  | _ => Err (AttributeError ("'float' object has no attribute '" +:+ method +:+ "'"))
  end.

(** [mechanics.replace(",", ", ").replace(" and ", ", ").replace(" or ", ", ")] *)
Definition prompt_mechanics (mechanics : string) : string :=
  Py.replace " or " ", " (Py.replace " and " ", " (Py.replace "," ", " mechanics)).

Definition make_prompt (game_name mechanics_prompt : string) : string :=
  "Verify the mechanics of the game '" +:+ game_name +:+ "'. The mechanics are "
  +:+ mechanics_prompt
  +:+ ". Please only give me the total amount that apply without any text formatting.".

(** [int(response.text.strip())]: the count that the model's answer holds. *)
Definition parse_count (response_text : string) : result Z :=
  Py.int (Py.strip response_text).

Definition required_columns : list string := ["Name"; "Year Published"; "Mechanics"].

Definition not_loaded : exn :=
  AttributeError "Dataset is not loaded or cleaned. Please call load_dataset_clean() first.".

Definition sum_Z (l : list Z) : Z := foldr Z.add 0 l.

Section Analyser.

(** The collaborators.  [generate_content] is the generative model: it
    has a state of its own, answers a prompt with the text of its
    response, or raises.  [read_csv] is pandas' reader on the files at
    hand.  [format_number] is Python's formatting of a number inside an
    f-string.  [quicksort] is the default sort of [sort_values]. *)
Variable Model : Type.
Variable generate_content : Model -> string -> result string * Model.
Variable read_csv : string -> string -> result pd.DataFrame.
Variable format_number : Q -> string.
Variable quicksort : forall A : Type, (A -> A -> bool) -> list A -> list A.

(** The object: an attribute that is not set yet is [None].  The standard
    output is carried along with it. *)
Record analyser := {
  dataset_path : string;
  api_key : string;
  model : Model;
  dataset : option pd.DataFrame;
  cleaned_dataset : option pd.DataFrame;
  stdout : list line
}.

(** [BoardGameMechanicsAnalyser(dataset_path, api_key)] *)
Definition init (path key : string) (m : Model) : analyser :=
  {| dataset_path := path; api_key := key; model := m;
     dataset := None; cleaned_dataset := None; stdout := [] |}.

Definition set_dataset (df : pd.DataFrame) (self : analyser) : analyser :=
  {| dataset_path := dataset_path self; api_key := api_key self; model := model self;
     dataset := Some df; cleaned_dataset := cleaned_dataset self; stdout := stdout self |}.

Definition set_cleaned_dataset (df : pd.DataFrame) (self : analyser) : analyser :=
  {| dataset_path := dataset_path self; api_key := api_key self; model := model self;
     dataset := dataset self; cleaned_dataset := Some df; stdout := stdout self |}.

Definition set_model (m : Model) (self : analyser) : analyser :=
  {| dataset_path := dataset_path self; api_key := api_key self; model := m;
     dataset := dataset self; cleaned_dataset := cleaned_dataset self; stdout := stdout self |}.

Definition write (l : line) (self : analyser) : analyser :=
  {| dataset_path := dataset_path self; api_key := api_key self; model := model self;
     dataset := dataset self; cleaned_dataset := cleaned_dataset self;
     stdout := stdout self ++ [l] |}.

Definition print (l : line) : PyM analyser unit := modify (write l).

(** [self.model.generate_content(prompt).text] *)
Definition ask (prompt : string) : PyM analyser string :=
  fun self =>
    let '(r, m) := generate_content (model self) prompt in (r, set_model m self).

(** [if not hasattr(self, 'cleaned_dataset'): raise AttributeError(...)] *)
Definition loaded : PyM analyser pd.DataFrame :=
  fun self =>
    match cleaned_dataset self with
    | Some df => (Ok df, self)
    | None => (Err not_loaded, self)
    end.

Definition format (v : cell) : string :=
  match v with
  | Str s => s
  | Num q => format_number q
  | NaN => "nan"
  end.

(** *** [load_dataset_clean] *)

Definition load_dataset_clean (sep : string) : PyM analyser pd.DataFrame :=
  let* path := gets dataset_path in
  let* df :=
    try_except (lift (read_csv path sep))
      (fun e => match e with
                | FileNotFoundError _ => raise (FileNotFoundError ("File not found: " +:+ path))
                | _ => raise e
                end) in
  let* _ := modify (set_dataset df) in
  if negb (forallb (fun col => bool_decide (col ∈ pd.columns df)) required_columns)
  then raise (ValueError "Dataset is missing required columns")
  else
    let cleaned := pd.dropna required_columns df in
    let* _ := modify (set_cleaned_dataset cleaned) in
    let* year := lift (pd.getitem cleaned "Year Published") in
    let cleaned := pd.loc (map (fun v => pd.ne v 0) year) cleaned in
    let* _ := modify (set_cleaned_dataset cleaned) in
    ret cleaned.

(** *** [verify_mechanics_with_genai] *)

Definition verify_mechanics_with_genai (game_name : string) : PyM analyser Py.float :=
  let* cleaned := loaded in
  let* name := lift (pd.getitem cleaned "Name") in
  let game_row := pd.loc (map (fun v => pd.eq_str v game_name) name) cleaned in
  if pd.empty game_row
  then raise (ValueError ("Game '" +:+ game_name +:+ "' not found in the dataset."))
  else
    let* column := lift (pd.getitem game_row "Mechanics") in
    let mechanics := default NaN (head column) in
    let* mechanics := lift (as_str mechanics "replace") in
    let mechanics_prompt := prompt_mechanics mechanics in
    let prompt := make_prompt game_name mechanics_prompt in
    let* response := ask prompt in
    let number_of_mechanics := Py.count ","%char mechanics + 1 in
    let* count := lift (parse_count response) in
    let* accuracy := lift (Py.truediv count number_of_mechanics) in
    let* _ := print (VerifyCount game_name (Py.strip response)) in
    let* _ := print (VerifyAccuracy game_name accuracy) in
    let* _ := print Blank in
    ret accuracy.

(** *** [get_top_200_list] *)

Definition get_top_200_list (sort_by : string) (ascending : bool)
  : PyM analyser (list dict) :=
  let* cleaned := loaded in
  if negb (bool_decide (sort_by ∈ pd.columns cleaned))
  then raise (ValueError ("Column '" +:+ sort_by +:+ "' not found in the dataset."))
  else
    let* sorted := lift (pd.sort_values quicksort sort_by ascending cleaned) in
    ret (pd.to_dict_records (pd.head 200 sorted)).

(** The defaults [sort_by="Rating Average"], [ascending=False]. *)
Definition get_top_200_list_default : PyM analyser (list dict) :=
  get_top_200_list "Rating Average" false.

(** *** [calculate_total_applicable_mechanics] *)

(** The local variables of the method, next to the object. *)
Record frame := {
  total_applicable_mechanics : Z;
  mechanic_counter : Counter.t;
  all_mechanics : gset string;
  this : analyser
}.

Definition enter (self : analyser) : frame :=
  {| total_applicable_mechanics := 0; mechanic_counter := [];
     all_mechanics := ∅; this := self |}.

Definition add_total (n : Z) (f : frame) : frame :=
  {| total_applicable_mechanics := total_applicable_mechanics f + n;
     mechanic_counter := mechanic_counter f;
     all_mechanics := all_mechanics f; this := this f |}.

Definition update_counter (xs : list string) (f : frame) : frame :=
  {| total_applicable_mechanics := total_applicable_mechanics f;
     mechanic_counter := Counter.update xs (mechanic_counter f);
     all_mechanics := all_mechanics f; this := this f |}.

Definition update_all_mechanics (xs : list string) (f : frame) : frame :=
  {| total_applicable_mechanics := total_applicable_mechanics f;
     mechanic_counter := mechanic_counter f;
     all_mechanics := all_mechanics f ∪ list_to_set xs; this := this f |}.

Definition with_this (self : analyser) (f : frame) : frame :=
  {| total_applicable_mechanics := total_applicable_mechanics f;
     mechanic_counter := mechanic_counter f;
     all_mechanics := all_mechanics f; this := self |}.

(** A statement on the object, run inside the method. *)
Definition on_self {A} (m : PyM analyser A) : PyM frame A :=
  fun f => let '(r, self) := m (this f) in (r, with_this self f).

(** The body of the [try] block, for one game.  ([time.sleep(4)] at its
    end changes nothing here.) *)
Definition process_game (game : dict) : PyM frame unit :=
  let* game_name := lift (dict_getitem game "Name") in
  let* mechanics := lift (dict_getitem game "Mechanics") in
  let* mechanics := lift (as_str mechanics "replace") in
  let mechanics_prompt := prompt_mechanics mechanics in
  let* _ := modify (update_all_mechanics (Py.split ","%char mechanics)) in
  let prompt := make_prompt (format game_name) mechanics_prompt in
  let* response := on_self (ask prompt) in
  let* applicable_mechanics := lift (parse_count response) in
  let* _ := modify (add_total applicable_mechanics) in
  let* applicable_mechanics_count := lift (parse_count response) in
  let* _ := on_self (print (Processed game_name applicable_mechanics)) in
  let applicable_mechanics_list :=
    Py.slice_to applicable_mechanics_count (Py.split ","%char mechanics) in
  let* _ := modify (update_counter (map Py.strip applicable_mechanics_list)) in
  ret tt.

(** The [except Exception as Error:] clause: it reads [game['Name']]
    again. *)
Definition report (game : dict) (error : exn) : PyM frame unit :=
  let* game_name := lift (dict_getitem game "Name") in
  on_self (print (ErrorProcessing game_name error)).

Definition print_assigned (l : list (string * nat)) : PyM analyser unit :=
  for_each l (fun mc => print (Assigned mc.1 mc.2)).

(** The value that the method returns. *)
Record summary := {
  average_applicable_mechanics : Py.float;
  least_ten_mechanics : list (string * nat);
  top_ten_mechanics : list (string * nat);
  unassigned_mechanics : gset string
}.

Definition after_loop (top_200_list : list dict) : PyM frame summary :=
  let total_length_top_200 := sum_Z (map (fun game => Z.of_nat (size game)) top_200_list) in
  let* total := gets total_applicable_mechanics in
  let* average := lift (Py.truediv total total_length_top_200) in
  let* _ := on_self (print Blank) in
  let* _ := on_self (print (TotalFound total)) in
  let* _ := on_self (print (GroundTruth total_length_top_200)) in
  let* _ := on_self (print Blank) in
  let* hundred := lift (Py.float_of_int 100) in
  let* _ := on_self (print (AverageCorrespondence (Py.mul average hundred))) in
  let* _ := on_self (print TopHeader) in
  let* counter := gets mechanic_counter in
  let top_ten_mechanics := Counter.most_common 10 counter in
  let* _ := on_self (print_assigned top_ten_mechanics) in
  let* _ := on_self (print LeastHeader) in
  let least_ten_mechanics := take 10 (reverse (Counter.most_common_all counter)) in
  let* _ := on_self (print_assigned least_ten_mechanics) in
  let* all := gets all_mechanics in
  let unassigned := all ∖ list_to_set (Counter.keys counter) in
  let* _ := on_self (print NeverHeader) in
  let* _ := on_self (for_each (Py.sorted String.leb (elements unassigned))
                       (fun mechanic => print (Never mechanic))) in
  ret {| average_applicable_mechanics := average;
         least_ten_mechanics := least_ten_mechanics;
         top_ten_mechanics := top_ten_mechanics;
         unassigned_mechanics := unassigned |}.

Definition calculate_total_applicable_mechanics (top_200_list : list dict)
  : PyM analyser summary :=
  let* _ := loaded in
  fun self =>
    let '(r, f) :=
      (let* _ := for_each top_200_list
                   (fun game => try_except (process_game game) (report game)) in
       after_loop top_200_list) (enter self) in
    (r, this f).

(** *** The loop, game by game

    What becomes of one game, in the words of the specification: its
    record is unusable and
    the model is not asked; or the mechanics are listed and the model is
    asked, and then either no count comes back (the call raises, or the
    answer is not an integer) or a count [k] does. *)
Inductive outcome :=
| Unusable
| NoCount (mechanics : string)
| Counted (mechanics : string) (k : Z).

Definition outcome_of (mechanics : string) (answer : result string) : outcome :=
  match answer with
  | Ok text =>
      match parse_count text with
      | Ok k => Counted mechanics k
      | Err _ => NoCount mechanics
      end
  | Err _ => NoCount mechanics
  end.

(** One game: its outcome and the state of the model after it. *)
Definition play (game : dict) (m : Model) : outcome * Model :=
  match game !! "Name", game !! "Mechanics" with
  | Some game_name, Some (Str mechanics) =>
      let '(answer, m') :=
        generate_content m
          (make_prompt (format game_name) (prompt_mechanics mechanics)) in
      (outcome_of mechanics answer, m')
  | _, _ => (Unusable, m)
  end.

(** The outcomes of the games in sequence order, the model's state going
    from one call to the next. *)
Fixpoint outcomes (games : list dict) (m : Model) : list outcome :=
  match games with
  | [] => []
  | game :: rest => (play game m).1 :: outcomes rest (play game m).2
  end.

(** The state of the model after the games. *)
Fixpoint model_after (games : list dict) (m : Model) : Model :=
  match games with
  | [] => m
  | game :: rest => model_after rest (play game m).2
  end.

End Analyser.

Arguments dataset_path {Model} _.
Arguments api_key {Model} _.
Arguments model {Model} _.
Arguments dataset {Model} _.
Arguments cleaned_dataset {Model} _.
Arguments stdout {Model} _.
Arguments total_applicable_mechanics {Model} _.
Arguments mechanic_counter {Model} _.
Arguments all_mechanics {Model} _.
Arguments this {Model} _.


(** ** Reference notions for the statements *)

(** The split, untrimmed mechanics of the games that were listed. *)
Definition listed_mechanics (o : outcome) : list string :=
  match o with
  | Unusable => []
  | NoCount mechanics | Counted mechanics _ => Py.split ","%char mechanics
  end.

(** The trimmed entries that a game adds to the tally. *)
Definition assigned_mechanics (o : outcome) : list string :=
  match o with
  | Counted mechanics k => map Py.strip (Py.slice_to k (Py.split ","%char mechanics))
  | _ => []
  end.

(** The count that a game adds to the running total. *)
Definition counted (o : outcome) : Z :=
  match o with
  | Counted _ k => k
  | _ => 0
  end.

Definition has_name (game : dict) : Prop := is_Some (game !! "Name").

(** A row survives the cleaning: its three required fields are present and
    its year is not 0. *)
Definition kept (cols : list string) (r : list cell) : bool :=
  negb (pd.isna (pd.at_ cols r "Name"))
  && negb (pd.isna (pd.at_ cols r "Year Published"))
  && negb (pd.isna (pd.at_ cols r "Mechanics"))
  && pd.ne (pd.at_ cols r "Year Published") 0.

(** The table that the two cleaning steps leave. *)
Definition clean (df : pd.DataFrame) : pd.DataFrame :=
  {| pd.columns := pd.columns df; pd.rows := List.filter (kept (pd.columns df)) (pd.rows df) |}.

(** What the library promises of the default sort of [sort_values]: the
    result is a rearrangement of the input, and it is sorted when the order
    is total and transitive on the elements at hand.  Nothing is promised
    about the order of equal keys. *)
Definition sorts (quicksort : forall A : Type, (A -> A -> bool) -> list A -> list A) : Prop :=
  forall (A : Type) (le : A -> A -> bool) (l : list A),
    quicksort A le l ≡ₚ l
    /\ ((forall x y, x ∈ l -> y ∈ l -> le x y = true \/ le y x = true) ->
        (forall x y z, x ∈ l -> y ∈ l -> z ∈ l ->
                       le x y = true -> le y z = true -> le x z = true) ->
        StronglySorted (fun x y => le x y = true) (quicksort A le l)).

(** The order of two keys in a sorted result: in the direction asked for,
    the missing values last. *)
Definition key_order (ascending : bool) (a b : cell) : Prop :=
  match a, b with
  | _, NaN => True
  | NaN, _ => False
  | _, _ => if ascending then pd.le a b = true else pd.le b a = true
  end.

(** A table as the reader builds it: the column labels are distinct and
    every row has one cell per column. *)
Definition well_formed (df : pd.DataFrame) : Prop :=
  NoDup (pd.columns df)
  /\ Forall (fun r : list cell => length r = length (pd.columns df)) (pd.rows df).

(** The value of a record under a key, [NaN] if the key is absent. *)
Definition field (c : string) (d : dict) : cell := default NaN (d !! c).

Definition has_required_columns (df : pd.DataFrame) : Prop :=
  Forall (fun col => col ∈ pd.columns df) required_columns.

(** The line that the loop writes for a game: the count found, or the error
    with the game's name. *)
Definition reported (game : dict) (o : outcome) (l : line) : Prop :=
  match o with
  | Counted _ k => l = Processed (default NaN (game !! "Name")) k
  | _ => exists e, l = ErrorProcessing (default NaN (game !! "Name")) e
  end.

(** ** A scripted environment, to run the methods on examples *)

Module Script.

(** A model that answers from a script, one entry per call. *)
Definition Model := list (result string).

Definition generate_content (m : Model) (prompt : string) : result string * Model :=
  match m with
  | [] => (Err (OtherException "ResourceExhausted"), [])
  | answer :: m' => (answer, m')
  end.

Definition format_number (q : Q) : string := "0".

Definition game (name mechanics : string) : dict :=
  <["Name" := Str name]> (<["Mechanics" := Str mechanics]> ∅).

Definition table : pd.DataFrame :=
  {| pd.columns := ["Name"; "Year Published"; "Mechanics"; "Rating Average"];
     pd.rows := [ [Str "G1"; Num (inject_Z 2017); Str "Dice Rolling,Trading,Area Control"; Num (8 # 1)];
                  [Str "G0"; Num (inject_Z 0); Str "Auction"; Num (9 # 1)];
                  [Str "G2"; Num (inject_Z 2015); Str "Drafting,Worker Placement"; Num (8 # 1)];
                  [Str "G3"; NaN; Str "Auction"; Num (7 # 1)];
                  [Str "G4"; Num (inject_Z 1995); Str "Auction and Bidding"; NaN] ] |}.

(** The files at hand: one table, and one file that exists and may not be
    read, on which the reader raises [PermissionError]. *)
Definition read_csv (path sep : string) : result pd.DataFrame :=
  if bool_decide (path = "dataset.csv") then Ok table
  else if bool_decide (path = "locked.csv")
       then Err (OtherException "PermissionError: [Errno 13] Permission denied: 'locked.csv'")
       else Err (FileNotFoundError path).

(** A sort that meets what the library promises of its default one: a
    stable insertion sort. *)
Definition stable_sort (A : Type) (le : A -> A -> bool) (l : list A) : list A :=
  Py.sorted le l.

(** A model without a state that gives the same answer to every prompt,
    and an analyser with it whose dataset is loaded. *)
Definition steady (answer : string) (m : unit) (prompt : string) : result string * unit :=
  (Ok answer, m).

Definition steady_analyser : analyser unit :=
  set_cleaned_dataset unit (clean table) (init unit "dataset.csv" "key" tt).

(** A new analyser on a path. *)
Definition fresh (path : string) : analyser Model := init Model path "key" [].

(** An analyser whose dataset is loaded, with a scripted model. *)
Definition loaded_analyser (script : Model) : analyser Model :=
  set_cleaned_dataset Model (clean table) (init Model "dataset.csv" "key" script).

(** A record that lacks the key ['Name']. *)
Definition nameless (mechanics : string) : dict :=
  <["Mechanics" := Str mechanics]> ∅.

Definition calculate (script : Model) (games : list dict) :=
  calculate_total_applicable_mechanics Model generate_content format_number games
    (loaded_analyser script).

End Script.

Fixpoint all_chars (p : ascii -> bool) (s : string) : bool :=
  match s with
  | EmptyString => true
  | String c s' => p c && all_chars p s'
  end.



(** The number that a string of decimal digits denotes, continuing from
    [acc]. *)
Fixpoint decimal (acc : Z) (s : string) : Z :=
  match s with
  | EmptyString => acc
  | String c s' => decimal (10 * acc + Py.digit_value c) s'
  end.

(** ** The script under [if __name__ == "__main__":]

    The analyser is built on ['dataset.csv'], the dataset is loaded with
    the default separator, one game is verified, and the batch runs over
    the default top 200.  The key is an argument here: the source writes it
    as a literal, which only [genai.configure] reads, and no property below
    depends on its value. *)

Section Main.

Variable Model : Type.
Variable generate_content : Model -> string -> result string * Model.
Variable read_csv : string -> string -> result pd.DataFrame.
Variable format_number : Q -> string.
Variable quicksort : forall A : Type, (A -> A -> bool) -> list A -> list A.

Definition main (key : string) (m : Model) : result summary * analyser Model :=
  (let* _ := load_dataset_clean Model read_csv ";" in
   let* _ := verify_mechanics_with_genai Model generate_content "Gloomhaven" in
   let* top_200_list := get_top_200_list_default Model quicksort in
   calculate_total_applicable_mechanics Model generate_content format_number top_200_list)
    (init Model "dataset.csv" key m).

End Main.

(** ** More reference notions *)

(** [c[k]] on a Counter: the count of a key, 0 when the key is absent. *)
Fixpoint count_of (k : string) (c : Counter.t) : nat :=
  match c with
  | [] => O
  | (k', n) :: c' => if bool_decide (k = k') then n else count_of k c'
  end.

(** How often [x] occurs in [xs]. *)
Fixpoint occurrences (x : string) (xs : list string) : nat :=
  match xs with
  | [] => O
  | y :: xs' => (if bool_decide (x = y) then 1 else 0) + occurrences x xs'
  end.

(** [sep.join(l)] *)
Fixpoint join (sep : string) (l : list string) : string :=
  match l with
  | [] => ""
  | x :: l' =>
      match l' with
      | [] => x
      | _ :: _ => x +:+ sep +:+ join sep l'
      end
  end.

(** A record whose mechanics cannot be listed: the key is absent, or its
    value is not a string. *)
Definition unlisted (game : dict) : Prop :=
  match game !! "Mechanics" with
  | Some (Str _) => False
  | _ => True
  end.

(** [n / d < 2^e], written without fractions. *)
Definition below_pow2 (n d e : Z) : Prop :=
  if 0 <=? e then n < d * 2 ^ e else n * 2 ^ (- e) < d.

(** The float [x] is the quotient [a / b] rounded to a double: it is
    finite, it has the sign of the quotient, its significand and exponent
    are those of a double, and it is within half a unit of its last place
    of the quotient, [|m * 2^e - |a| / |b|| <= 2^e / 2], which is written
    here without fractions. *)
Definition rounded_quotient (x : Py.float) (a b : Z) : Prop :=
  match x with
  | Py.Finite s m e =>
      s = xorb (a <? 0) (b <? 0)
      /\ 0 <= m < 2 ^ 53 /\ -1074 <= e <= 971
      /\ if 0 <=? e
         then Z.abs (2 * (m * 2 ^ e * Z.abs b) - 2 * Z.abs a) <= 2 ^ e * Z.abs b
         else Z.abs (2 * (m * Z.abs b) - 2 * (Z.abs a * 2 ^ (- e))) <= Z.abs b
  | _ => False
  end.

(** The number of commas of a string. *)
Definition commas (s : string) : nat :=
  length (List.filter (fun c => Ascii.eqb c ","%char) (String.list_ascii_of_string s)).

(** [old in s]: the string [old] occurs somewhere in [s]. *)
Fixpoint occurs (old s : string) : bool :=
  match s with
  | EmptyString => String.prefix old EmptyString
  | String _ s' => String.prefix old s || occurs old s'
  end.

(** A small dataset that holds the game of the script. *)
Definition gloomhaven_table : pd.DataFrame :=
  {| pd.columns := ["Name"; "Year Published"; "Mechanics"; "Rating Average"];
     pd.rows := [ [Str "Brass"; Num (inject_Z 2018); Str "Hand Management, Network Building";
                   Num (86 # 10)];
                  [Str "Gloomhaven"; Num (inject_Z 2017); Str "Grid Movement,Hand Management";
                   Num (87 # 10)] ] |}.

(** * Properties *)

(** ** Python strings *)

Lemma string_app_cons c (l s : string) : String c l +:+ s = String c (l +:+ s).
Proof. reflexivity. Qed.

Lemma string_app_assoc (l d r : string) : (l +:+ d) +:+ r = l +:+ d +:+ r.
Proof. induction l as [|c l IH]; [done|]. rewrite !string_app_cons. by rewrite IH. Qed.

Lemma isdecimal_not_space c : Py.isdecimal c = true -> Py.isspace c = false.
Proof. destruct c as [[] [] [] [] [] [] [] []]; (reflexivity || discriminate). Qed.

Lemma int_space_isspace c : Py.int_space c = true -> Py.isspace c = true.
Proof. destruct c as [[] [] [] [] [] [] [] []]; (reflexivity || discriminate). Qed.

Lemma rstrip_cons c s :
  Py.rstrip (String c s) =
  match Py.rstrip s with
  | EmptyString => if Py.isspace c then EmptyString else String c EmptyString
  | r => String c r
  end.
Proof. reflexivity. Qed.

Lemma rstrip_spaces r : all_chars Py.isspace r = true -> Py.rstrip r = "".
Proof.
  induction r as [|c r IH]; simpl; [done|].
  intros [Hc Hr]%andb_prop. rewrite (IH Hr), Hc. done.
Qed.

Lemma rstrip_app_spaces s r :
  all_chars Py.isspace r = true -> Py.rstrip (s +:+ r) = Py.rstrip s.
Proof.
  intros Hr. induction s as [|c s IH].
  - by apply rstrip_spaces.
  - by rewrite string_app_cons, !rstrip_cons, IH.
Qed.

Lemma rstrip_not_space s :
  s <> "" -> all_chars (fun c => negb (Py.isspace c)) s = true -> Py.rstrip s = s.
Proof.
  induction s as [|c s IH]; [done|]. intros _ [Hc Hs]%andb_prop.
  rewrite rstrip_cons. destruct s as [|c' s'].
  - simpl. apply negb_true_iff in Hc. by rewrite Hc.
  - by rewrite IH.
Qed.

Lemma rstrip_app_keep l s : s <> "" -> Py.rstrip s = s -> Py.rstrip (l +:+ s) = l +:+ s.
Proof.
  intros Hne Hs. induction l as [|c l IH]; [done|].
  rewrite string_app_cons, rstrip_cons, IH. destruct (l +:+ s) eqn:E; [|done].
  destruct l; [destruct (Hne E) | discriminate E].
Qed.

Lemma lstrip_app_spaces l s :
  all_chars Py.isspace l = true -> Py.lstrip (l +:+ s) = Py.lstrip s.
Proof.
  induction l as [|c l IH]; [done|]. rewrite string_app_cons. simpl.
  intros [Hc Hl]%andb_prop. rewrite Hc. auto.
Qed.

Lemma lstrip_not_space c s : Py.isspace c = false -> Py.lstrip (String c s) = String c s.
Proof. intros H. simpl. by rewrite H. Qed.

Lemma all_digits_not_space d :
  all_chars Py.isdecimal d = true -> all_chars (fun c => negb (Py.isspace c)) d = true.
Proof.
  induction d as [|c d IH]; simpl; [done|].
  intros [Hc Hd]%andb_prop. rewrite (isdecimal_not_space _ Hc). simpl. auto.
Qed.


Lemma rstrip_idem s : Py.rstrip (Py.rstrip s) = Py.rstrip s.
Proof.
  induction s as [|c s IH]; [done|]. rewrite rstrip_cons.
  destruct (Py.rstrip s) as [|c' r] eqn:E.
  - destruct (Py.isspace c) eqn:Ec; [done|]. simpl. by rewrite Ec.
  - by rewrite rstrip_cons, IH.
Qed.

Lemma rstrip_lstrip t : Py.rstrip t = t -> Py.rstrip (Py.lstrip t) = Py.lstrip t.
Proof.
  induction t as [|c t IH]; [done|]. intros H. simpl.
  destruct (Py.isspace c) eqn:Ec; [|done].
  apply IH. rewrite rstrip_cons, Ec in H.
  destruct (Py.rstrip t); [discriminate | congruence].
Qed.

Lemma lstrip_idem t : Py.lstrip (Py.lstrip t) = Py.lstrip t.
Proof.
  induction t as [|c t IH]; [done|]. simpl.
  destruct (Py.isspace c) eqn:Ec; [done|]. simpl. by rewrite Ec.
Qed.

(** Stripping twice is stripping once. *)
Lemma strip_idem s : Py.strip (Py.strip s) = Py.strip s.
Proof.
  unfold Py.strip. rewrite rstrip_lstrip by apply rstrip_idem. apply lstrip_idem.
Qed.







(** ** Reading an int *)

Lemma skip_space_keep c s : Py.isspace c = false -> Py.skip_space (String c s) = String c s.
Proof.
  intros H. simpl. destruct (Py.int_space c) eqn:E; [|done].
  apply int_space_isspace in E. congruence.
Qed.


Lemma scan_all_digits d : forall acc n prev,
  all_chars Py.isdecimal d = true -> (d <> "" \/ prev = true) ->
  Py.scan_digits acc n prev d
  = Some (decimal acc d, n + Z.of_nat (String.length d), "").
Proof.
  induction d as [|c d IH]; intros acc n prev Hd Hne; simpl.
  - destruct Hne as [Hne| ->]; [done|]. by rewrite Z.add_0_r.
  - simpl in Hd. apply andb_prop in Hd as [Hc Hd]. rewrite Hc.
    rewrite IH by auto. do 3 f_equal. lia.
Qed.

(** [int] on a block of digits, with or without a sign in front: the
    number of the block when the block has at most 4300 digits, and
    [ValueError] when it has more. *)
Lemma int_digits (negative : bool) (c : ascii) (d : string) :
  Py.isspace c = false -> Py.sign (String c d) = (negative, d) ->
  all_chars Py.isdecimal d = true -> d <> "" ->
  Py.int (String c d)
  = if Py.int_max_str_digits <? Z.of_nat (String.length d)
    then Err (ValueError
                ("Exceeds the limit (4300 digits) for integer string conversion: "
                 +:+ "value has " +:+ pretty (Z.of_nat (String.length d))
                 +:+ " digits; use sys.set_int_max_str_digits() to increase the limit"))
    else Ok (if negative then - decimal 0 d else decimal 0 d).
Proof.
  intros Hc Hs Hd Hne. unfold Py.int. cbv zeta.
  rewrite skip_space_keep, Hs by done. cbn [fst snd].
  rewrite scan_all_digits by auto. rewrite Z.add_0_l.
  by destruct (Py.int_max_str_digits <? _).
Qed.






(** ** True division *)

Lemma nearest_double_in_range (n d : Z) :
  0 < n -> 0 < d -> n < 2 ^ 1023 -> (Py.nearest_double n d).2 <= 971.
Proof.
  intros Hn Hd Hlt. unfold Py.nearest_double. cbv zeta.
  assert (Z.log2 n < 1023) by (apply Z.log2_lt_pow2; lia).
  pose proof (Z.log2_nonneg d).
  destruct (Py.pow2_le _ n d); destruct (_ =? 2 ^ 53); cbn [snd]; lia.
Qed.

Lemma truediv_ok (a b : Z) :
  b <> 0 -> Z.abs a < 2 ^ 1023 -> exists x, Py.truediv a b = Ok x.
Proof.
  intros Hb Ha. unfold Py.truediv.
  destruct (Z.eqb_spec b 0); [done|].
  destruct (Z.eqb_spec a 0); [by eexists|]. cbv zeta.
  pose proof (nearest_double_in_range (Z.abs a) (Z.abs b)) as H.
  destruct (Z.ltb_spec 971 (Py.nearest_double (Z.abs a) (Z.abs b)).2); [lia | by eexists].
Qed.

Lemma truediv_raises (a b : Z) (e : exn) :
  Py.truediv a b = Err e ->
  (b = 0 /\ e = ZeroDivisionError)
  \/ (b <> 0 /\ e = OverflowError "integer division result too large for a float").
Proof.
  unfold Py.truediv. destruct (Z.eqb_spec b 0); [intros [= <-]; by left|].
  destruct (a =? 0); [done|]. cbv zeta.
  destruct (971 <? _); [intros [= <-]; by right | done].
Qed.

Lemma round_half_even_close (n d : Z) :
  0 <= n -> 0 < d ->
  0 <= Py.round_half_even n d
  /\ Z.abs (2 * (Py.round_half_even n d * d) - 2 * n) <= d.
Proof.
  intros Hn Hd. unfold Py.round_half_even. cbv zeta.
  pose proof (Z.div_mod n d ltac:(lia)) as Hdm.
  pose proof (Z.mod_pos_bound n d Hd) as Hr.
  pose proof (Z.div_pos n d Hn Hd) as Hq.
  set (q := n / d) in *. set (r := n mod d) in *.
  destruct (Z.ltb_spec (2 * r) d); [|destruct (Z.ltb_spec d (2 * r)); [|destruct (Z.even q)]];
    (split; [lia | nia]).
Qed.

Lemma nearest_double_close (n d : Z) :
  0 < n -> 0 < d ->
  let me := Py.nearest_double n d in
  0 <= me.1 /\ -1074 <= me.2
  /\ if 0 <=? me.2
     then Z.abs (2 * (me.1 * 2 ^ me.2 * d) - 2 * n) <= 2 ^ me.2 * d
     else Z.abs (2 * (me.1 * d) - 2 * (n * 2 ^ (- me.2))) <= d.
Proof.
  intros Hn Hd. unfold Py.nearest_double. cbv zeta.
  set (e := Z.max _ (-1074)).
  assert (He : -1074 <= e) by apply Z.le_max_r.
  destruct (Z.leb_spec 0 e) as [Hpos|Hneg].
  - assert (Hp : 0 < 2 ^ e) by (apply Z.pow_pos_nonneg; lia).
    destruct (round_half_even_close n (d * 2 ^ e)) as [Hm Hc]; [lia | nia |].
    set (m := Py.round_half_even n (d * 2 ^ e)) in *.
    destruct (Z.eqb_spec m (2 ^ 53)) as [Hbump|_]; cbn [fst snd].
    + split; [lia|]. split; [lia|].
      destruct (Z.leb_spec 0 (e + 1)); [|lia].
      rewrite Z.pow_add_r by lia. change (2 ^ 1) with 2.
      rewrite Hbump in Hc. change (2 ^ 53) with (2 * 2 ^ 52) in Hc. nia.
    + split; [done|]. split; [done|].
      destruct (Z.leb_spec 0 e); [|lia]. nia.
  - assert (Hp : 0 < 2 ^ (- e)) by (apply Z.pow_pos_nonneg; lia).
    destruct (round_half_even_close (n * 2 ^ (- e)) d) as [Hm Hc]; [nia | done |].
    set (m := Py.round_half_even (n * 2 ^ (- e)) d) in *.
    destruct (Z.eqb_spec m (2 ^ 53)) as [Hbump|_]; cbn [fst snd].
    + split; [lia|]. split; [lia|].
      rewrite Hbump in Hc. change (2 ^ 53) with (2 * 2 ^ 52) in Hc.
      destruct (Z.leb_spec 0 (e + 1)).
      * assert (e = -1) as -> by lia. change (2 ^ (- -1)) with 2 in *.
        change (2 ^ (-1 + 1)) with 1. nia.
      * replace (- e) with (1 + - (e + 1)) in * by lia.
        rewrite Z.pow_add_r in * by lia. change (2 ^ 1) with 2 in *.
        assert (0 < 2 ^ (- (e + 1))) by (apply Z.pow_pos_nonneg; lia). nia.
    + split; [done|]. split; [done|].
      destruct (Z.leb_spec 0 e); [lia|]. done.
Qed.

Lemma below_pow2_mono (n d e e' : Z) :
  0 <= n -> 0 < d -> below_pow2 n d e -> e <= e' -> below_pow2 n d e'.
Proof.
  unfold below_pow2. intros Hn Hd H Hle.
  destruct (Z.leb_spec 0 e), (Z.leb_spec 0 e'); try lia.
  - pose proof (Z.pow_le_mono_r 2 e e' ltac:(lia) Hle). nia.
  - assert (1 <= 2 ^ (- e)) by (apply (Z.pow_le_mono_r 2 0); lia).
    assert (1 <= 2 ^ e') by (apply (Z.pow_le_mono_r 2 0); lia). nia.
  - pose proof (Z.pow_le_mono_r 2 (- e') (- e) ltac:(lia) ltac:(lia)). nia.
Qed.

Lemma log2_quotient (n d : Z) :
  0 < n -> 0 < d -> below_pow2 n d (Z.log2 n - Z.log2 d + 1).
Proof.
  intros Hn Hd. unfold below_pow2.
  destruct (Z.log2_spec n Hn) as [_ Hnu]. destruct (Z.log2_spec d Hd) as [Hdl _].
  pose proof (Z.log2_nonneg n). pose proof (Z.log2_nonneg d).
  rewrite Z.pow_succ_r in Hnu by done.
  destruct (Z.leb_spec 0 (Z.log2 n - Z.log2 d + 1)).
  - assert (2 ^ Z.log2 d * 2 ^ (Z.log2 n - Z.log2 d + 1) = 2 * 2 ^ Z.log2 n).
    { rewrite <- Z.pow_add_r by lia. rewrite <- Z.pow_succ_r by lia. f_equal. lia. }
    assert (0 < 2 ^ (Z.log2 n - Z.log2 d + 1)) by (apply Z.pow_pos_nonneg; lia). nia.
  - assert (2 * 2 ^ Z.log2 n * 2 ^ (- (Z.log2 n - Z.log2 d + 1)) = 2 ^ Z.log2 d).
    { rewrite <- Z.pow_succ_r by lia. rewrite <- Z.pow_add_r by lia. f_equal. lia. }
    assert (0 < 2 ^ (- (Z.log2 n - Z.log2 d + 1))) by (apply Z.pow_pos_nonneg; lia). nia.
Qed.

Lemma pow2_le_false (e n d : Z) : Py.pow2_le e n d = false -> below_pow2 n d e.
Proof.
  unfold Py.pow2_le, below_pow2. destruct (0 <=? e); intros H%Z.leb_gt; lia.
Qed.

Lemma round_half_even_below (n d k : Z) :
  0 <= n -> 0 < d -> n < k * d -> Py.round_half_even n d <= k.
Proof.
  intros Hn Hd Hlt. unfold Py.round_half_even. cbv zeta.
  assert (n / d < k) by (apply Z.div_lt_upper_bound; lia).
  destruct (_ <? d); [lia|]. destruct (d <? _); [lia|]. destruct (Z.even _); lia.
Qed.

Lemma nearest_double_significand (n d : Z) :
  0 < n -> 0 < d -> (Py.nearest_double n d).1 < 2 ^ 53.
Proof.
  intros Hn Hd. unfold Py.nearest_double. cbv zeta.
  set (e0 := Z.log2 n - Z.log2 d).
  set (e1 := if Py.pow2_le e0 n d then e0 else e0 - 1).
  set (e := Z.max (e1 - 52) (-1074)).
  assert (H1 : below_pow2 n d (e1 + 1)).
  { unfold e1. destruct (Py.pow2_le e0 n d) eqn:E.
    - by apply log2_quotient.
    - replace (e0 - 1 + 1) with e0 by lia. by apply pow2_le_false. }
  assert (H53 : below_pow2 n d (e + 53)).
  { apply (below_pow2_mono n d (e1 + 1)); [lia | done | done | unfold e; lia]. }
  assert (Hm : (if 0 <=? e then Py.round_half_even n (d * 2 ^ e)
                else Py.round_half_even (n * 2 ^ (- e)) d) <= 2 ^ 53).
  { unfold below_pow2 in H53. destruct (Z.leb_spec 0 e) as [Hpos|Hneg].
    - assert (0 < 2 ^ e) by (apply Z.pow_pos_nonneg; lia).
      destruct (Z.leb_spec 0 (e + 53)); [|lia].
      rewrite Z.pow_add_r in H53 by lia.
      apply round_half_even_below; [lia | nia | nia].
    - assert (0 < 2 ^ (- e)) by (apply Z.pow_pos_nonneg; lia).
      apply round_half_even_below; [nia | done |].
      destruct (Z.leb_spec 0 (e + 53)).
      + assert (2 ^ (e + 53) * 2 ^ (- e) = 2 ^ 53).
        { rewrite <- Z.pow_add_r by lia. f_equal. lia. }
        nia.
      + assert (2 ^ (- (e + 53)) * 2 ^ 53 = 2 ^ (- e)).
        { rewrite <- Z.pow_add_r by lia. f_equal. lia. }
        assert (0 < 2 ^ 53) by (apply Z.pow_pos_nonneg; lia).
        nia. }
  destruct (_ =? 2 ^ 53) eqn:E; cbn [fst]; [reflexivity|].
  apply Z.eqb_neq in E. lia.
Qed.

(** What [a / b] returns is the quotient rounded to a double. *)
Lemma truediv_rounded (a b : Z) (x : Py.float) :
  Py.truediv a b = Ok x -> rounded_quotient x a b.
Proof.
  unfold Py.truediv. destruct (Z.eqb_spec b 0) as [|Hb]; [done|].
  destruct (Z.eqb_spec a 0) as [->|Ha].
  - intros [= <-]. simpl. repeat split; lia.
  - cbv zeta. destruct (Z.ltb_spec 971 (Py.nearest_double (Z.abs a) (Z.abs b)).2) as [|Hle];
      [done|].
    intros [= <-]. cbn [rounded_quotient].
    destruct (nearest_double_close (Z.abs a) (Z.abs b)) as (Hm & He & Hc); [lia..|].
    pose proof (nearest_double_significand (Z.abs a) (Z.abs b)).
    repeat split; (done || lia).
Qed.

Lemma float_of_int_100 : Py.float_of_int 100 = Ok (Py.Finite false 7036874417766400 (-46)).
Proof. vm_compute. reflexivity. Qed.

(** The quotients that Python gives: [1 / 3] is [0x1.5555555555555p-2],
    [7 / 6] is [0x1.2aaaaaaaaaaabp+0], [0 / -5] is [-0.0]; a tie goes to
    the even significand; the largest double is [(2^53 - 1) * 2^971], and
    the first quotient that rounds above it raises. *)
Example truediv_examples :
  Py.truediv 1 3 = Ok (Py.Finite false 0x15555555555555 (-54))
  /\ Py.truediv 7 6 = Ok (Py.Finite false 0x12aaaaaaaaaaab (-52))
  /\ Py.truediv (-1) 2 = Ok (Py.Finite true (2 ^ 52) (-53))
  /\ Py.truediv 0 (-5) = Ok (Py.zero true)
  /\ Py.truediv (-1) (10 ^ 400) = Ok (Py.zero true)
  /\ Py.truediv (2 ^ 53 + 1) 1 = Ok (Py.Finite false (2 ^ 52) 1)
  /\ Py.truediv (2 ^ 53 + 3) 1 = Ok (Py.Finite false (2 ^ 52 + 2) 1)
  /\ Py.truediv 3 (2 ^ 1075) = Ok (Py.Finite false 2 (-1074))
  /\ Py.truediv 1 (2 ^ 1075) = Ok (Py.zero false)
  /\ Py.truediv (2 ^ 1024 - 2 ^ 970 - 1) 1 = Ok (Py.Finite false (2 ^ 53 - 1) 971)
  /\ Py.truediv (2 ^ 1024 - 2 ^ 970) 1
     = Err (OverflowError "integer division result too large for a float")
  /\ Py.truediv (10 ^ 309) 2
     = Err (OverflowError "integer division result too large for a float")
  /\ Py.truediv 5 0 = Err ZeroDivisionError.
Proof. repeat split; vm_compute; reflexivity. Qed.

(** [0.5 * 100] is [50.0], [(1 / 3) * 100] is [0x1.0aaaaaaaaaaaap+5], and
    the largest double times 100 is [inf]. *)
Example mul_examples :
  Py.mul (Py.Finite false (2 ^ 52) (-53)) (Py.Finite false 7036874417766400 (-46))
  = Py.Finite false (50 * 2 ^ 47) (-47)
  /\ Py.mul (Py.Finite false 0x15555555555555 (-54)) (Py.Finite false 7036874417766400 (-46))
     = Py.Finite false 0x10aaaaaaaaaaaa (-47)
  /\ Py.mul (Py.Finite false (2 ^ 53 - 1) 971) (Py.Finite false 7036874417766400 (-46))
     = Py.Infinity false.
Proof. repeat split; vm_compute; reflexivity. Qed.

(** ** The batch loop *)

Section Batch.

Context {Model : Type}.
Variable generate_content : Model -> string -> result string * Model.
Variable format_number : Q -> string.

Local Abbreviation step :=
  (fun game => try_except (process_game Model generate_content format_number game)
                 (report Model game)).
Local Abbreviation play1 := (play Model generate_content format_number).
Local Abbreviation outcomes_of := (outcomes Model generate_content format_number).
Local Abbreviation model_after_games := (model_after Model generate_content format_number).

(** One turn of the loop on a record that has a name: the turn ends
    normally, one line is written, and the accumulators move by what the
    game's outcome says. *)
Lemma step_spec (game : dict) (f : frame Model) (name : cell) :
  game !! "Name" = Some name ->
  let o := (play1 game (model (this f))).1 in
  exists f' l,
    step game f = (Ok tt, f')
    /\ total_applicable_mechanics f' = total_applicable_mechanics f + counted o
    /\ mechanic_counter f' = Counter.update (assigned_mechanics o) (mechanic_counter f)
    /\ all_mechanics f' = all_mechanics f ∪ list_to_set (listed_mechanics o)
    /\ model (this f') = (play1 game (model (this f))).2
    /\ cleaned_dataset (this f') = cleaned_dataset (this f)
    /\ stdout (this f') = stdout (this f) ++ [l]
    /\ reported game o l.
Proof.
  intros Hname. unfold reported.
  unfold try_except, process_game, report, play, bind, lift, modify, gets, ret, raise,
    on_self, with_this, ask, print, dict_getitem. rewrite Hname.
  destruct (game !! "Mechanics") as [[| q | mechanics]|] eqn:Hm; simpl.
  4: { do 2 eexists; split; [reflexivity|]; simpl.
       rewrite union_empty_r_L. repeat split; eauto; lia. }
  3: { destruct (generate_content _ _) as [[text|e] m'] eqn:Hg; simpl.
       - unfold outcome_of. destruct (parse_count text) as [k|e] eqn:Hk; simpl.
         + do 2 eexists; split; [reflexivity|]; simpl. repeat split; eauto.
         + do 2 eexists; split; [reflexivity|]; simpl.
           repeat split; eauto; lia.
       - do 2 eexists; split; [reflexivity|]; simpl.
         repeat split; eauto; lia. }
  all: do 2 eexists; split; [reflexivity|]; simpl;
       rewrite union_empty_r_L; repeat split; eauto; lia.
Qed.

(** A record without a name stops the loop: the handler raises in its
    turn. *)
Lemma step_no_name (game : dict) (f : frame Model) :
  game !! "Name" = None -> step game f = (Err (KeyError "Name"), f).
Proof.
  intros Hname.
  unfold try_except, process_game, report, bind, lift, dict_getitem.
  by rewrite Hname.
Qed.

Lemma sum_Z_app l1 l2 : sum_Z (l1 ++ l2) = sum_Z l1 + sum_Z l2.
Proof. unfold sum_Z. induction l1; simpl; lia. Qed.

Lemma update_app xs ys c :
  Counter.update (xs ++ ys) c = Counter.update ys (Counter.update xs c).
Proof. unfold Counter.update. apply fold_left_app. Qed.

(** The loop over records that all have a name: it ends normally, and
    the accumulators hold what the outcomes add up to. *)
Lemma loop_spec (games : list dict) : forall f : frame Model,
  Forall has_name games ->
  let os := outcomes_of games (model (this f)) in
  exists f',
    for_each games step f = (Ok tt, f')
    /\ total_applicable_mechanics f' = total_applicable_mechanics f + sum_Z (map counted os)
    /\ mechanic_counter f'
       = Counter.update (concat (map assigned_mechanics os)) (mechanic_counter f)
    /\ all_mechanics f'
       = all_mechanics f ∪ list_to_set (concat (map listed_mechanics os))
    /\ model (this f') = model_after_games games (model (this f))
    /\ cleaned_dataset (this f') = cleaned_dataset (this f)
    /\ exists ls,
         stdout (this f') = stdout (this f) ++ ls
         /\ Forall2 (fun go l => reported go.1 go.2 l) (zip games os) ls.
Proof.
  induction games as [|game games IH]; intros f Hn.
  - exists f. simpl. rewrite union_empty_r_L. repeat split; auto; [lia|].
    exists []. by rewrite app_nil_r.
  - apply Forall_cons in Hn as [[name Hname] Hn].
    destruct (step_spec game f name Hname)
      as (f1 & l & Hs & Ht & Hc & Ha & Hm & Hd & Ho & Hr).
    destruct (IH f1 Hn) as (f' & Hl & Ht' & Hc' & Ha' & Hm' & Hd' & ls & Ho' & Hr').
    exists f'. cbn [for_each outcomes model_after map concat sum_Z foldr zip zip_with].
    unfold bind at 1. rewrite Hs, Hl.
    rewrite Hm in *. rewrite Ht', Ht, Hc', Hc, Ha', Ha, Hm', Hd', Hd.
    rewrite update_app, list_to_set_app_L.
    repeat split; auto; [unfold sum_Z; lia | by rewrite (assoc_L (∪)) |].
    exists (l :: ls). rewrite Ho', Ho, <- app_assoc. split; [done|].
    by constructor.
Qed.

Lemma print_loop_ok {A} (g : A -> line) (l : list A) : forall self : analyser Model,
  exists self',
    for_each l (fun x => print Model (g x)) self = (Ok tt, self')
    /\ model self' = model self
    /\ cleaned_dataset self' = cleaned_dataset self
    /\ stdout self' = stdout self ++ map g l.
Proof.
  induction l as [|x l IH]; intros self.
  - exists self. simpl. by rewrite app_nil_r.
  - destruct (IH (write Model (g x) self)) as (self' & Hl & Hm & Hd & Ho).
    exists self'. cbn [for_each]. unfold bind at 1, print at 1, modify at 1.
    rewrite Hl, Hm, Hd, Ho. simpl. by rewrite <- app_assoc.
Qed.

Lemma bind_ok {S A B} (m : PyM S A) (k : A -> PyM S B) s a s' :
  m s = (Ok a, s') -> bind m k s = k a s'.
Proof. intros H. unfold bind. by rewrite H. Qed.

Lemma bind_err {S A B} (m : PyM S A) (k : A -> PyM S B) s e s' :
  m s = (Err e, s') -> bind m k s = (Err e, s').
Proof. intros H. unfold bind. by rewrite H. Qed.

Lemma on_self_ok {A} (m : PyM (analyser Model) A) (f : frame Model) a self' :
  m (this f) = (Ok a, self') -> on_self Model m f = (Ok a, with_this Model self' f).
Proof. intros H. unfold on_self. by rewrite H. Qed.

Lemma on_self_print (l : line) (f : frame Model) :
  on_self Model (print Model l) f = (Ok tt, with_this Model (write Model l (this f)) f).
Proof. reflexivity. Qed.

(** What follows the loop when the division gives a float: the report and
    the result. *)
Lemma after_loop_spec (games : list dict) (f : frame Model) (average : Py.float) :
  let total_length := sum_Z (map (fun game : dict => Z.of_nat (size game)) games) in
  Py.truediv (total_applicable_mechanics f) total_length = Ok average ->
  exists f',
    after_loop Model games f
    = (Ok {| average_applicable_mechanics := average;
             least_ten_mechanics :=
               take 10 (reverse (Counter.most_common_all (mechanic_counter f)));
             top_ten_mechanics := Counter.most_common 10 (mechanic_counter f);
             unassigned_mechanics :=
               all_mechanics f ∖ list_to_set (Counter.keys (mechanic_counter f)) |}, f')
    /\ model (this f') = model (this f)
    /\ cleaned_dataset (this f') = cleaned_dataset (this f)
    /\ exists rest,
         stdout (this f')
         = stdout (this f)
           ++ [Blank; TotalFound (total_applicable_mechanics f); GroundTruth total_length]
           ++ rest.
Proof.
  intros total_length Hdiv. unfold after_loop. fold total_length.
  unfold print_assigned.
  rewrite (bind_ok _ _ f (total_applicable_mechanics f) f) by reflexivity.
  rewrite (bind_ok _ _ f average f) by (unfold lift; by rewrite Hdiv).
  do 4 (erewrite bind_ok by apply on_self_print).
  erewrite bind_ok by (unfold lift; rewrite float_of_int_100; reflexivity).
  do 2 (erewrite bind_ok by apply on_self_print).
  rewrite (bind_ok _ _ _ (mechanic_counter f) _) by reflexivity.
  lazymatch goal with |- context [bind (on_self _ (for_each ?l _)) _ ?f0] =>
    destruct (print_loop_ok (fun mc : string * nat => Assigned mc.1 mc.2) l (this f0))
      as (s1 & H1 & Hm1 & Hd1 & Ho1) end.
  erewrite bind_ok by (apply on_self_ok, H1).
  erewrite bind_ok by apply on_self_print.
  lazymatch goal with |- context [bind (on_self _ (for_each ?l _)) _ ?f0] =>
    destruct (print_loop_ok (fun mc : string * nat => Assigned mc.1 mc.2) l (this f0))
      as (s2 & H2 & Hm2 & Hd2 & Ho2) end.
  erewrite bind_ok by (apply on_self_ok, H2).
  rewrite (bind_ok _ _ _ (all_mechanics f) _) by reflexivity.
  erewrite bind_ok by apply on_self_print.
  lazymatch goal with |- context [bind (on_self _ (for_each ?l _)) _ ?f0] =>
    destruct (print_loop_ok Never l (this f0)) as (s3 & H3 & Hm3 & Hd3 & Ho3) end.
  erewrite bind_ok by (apply on_self_ok, H3).
  eexists; split; [reflexivity|]. cbn [this with_this] in *.
  rewrite Hm3, Hd3, Ho3. cbn [model cleaned_dataset stdout write].
  rewrite Hm2, Hd2, Ho2. cbn [model cleaned_dataset stdout write].
  rewrite Hm1, Hd1, Ho1. cbn [model cleaned_dataset stdout write].
  repeat split. eexists. rewrite <- !app_assoc. reflexivity.
Qed.

(** When the division raises, its error leaves the method before anything
    of the report is written. *)
Lemma after_loop_raises (games : list dict) (f : frame Model) (e : exn) :
  Py.truediv (total_applicable_mechanics f)
    (sum_Z (map (fun game : dict => Z.of_nat (size game)) games)) = Err e ->
  after_loop Model games f = (Err e, f).
Proof.
  intros Hdiv. unfold after_loop.
  rewrite (bind_ok _ _ f (total_applicable_mechanics f) f) by reflexivity.
  erewrite bind_err; [done|]. unfold lift. by rewrite Hdiv.
Qed.

Lemma keys_incr (k : string) (c : Counter.t) :
  list_to_set (C := gset string) (Counter.keys (Counter.incr k c))
  = {[k]} ∪ list_to_set (Counter.keys c).
Proof.
  induction c as [|[k' n] c IH].
  - done.
  - cbn [Counter.incr]. case_bool_decide.
    + subst. change (list_to_set (C := gset string) (k' :: Counter.keys c)
                     = {[k']} ∪ list_to_set (k' :: Counter.keys c)).
      rewrite list_to_set_cons, (assoc_L (∪)). by rewrite union_idemp_L.
    + change (list_to_set (C := gset string) (k' :: Counter.keys (Counter.incr k c))
              = {[k]} ∪ list_to_set (k' :: Counter.keys c)).
      rewrite !list_to_set_cons, IH, !(assoc_L (∪)). f_equal. apply (comm_L (∪)).
Qed.

(** The keys of a Counter after an update: the old keys and the elements
    counted. *)
Lemma keys_update (xs : list string) : forall c : Counter.t,
  list_to_set (C := gset string) (Counter.keys (Counter.update xs c))
  = list_to_set (Counter.keys c) ∪ list_to_set xs.
Proof.
  unfold Counter.update. induction xs as [|x xs IH]; intros c; simpl.
  - by rewrite union_empty_r_L.
  - rewrite IH, keys_incr, !(assoc_L (∪)). f_equal. apply (comm_L (∪)).
Qed.

Lemma size_has_name (game : dict) : has_name game -> 0 < Z.of_nat (size game).
Proof.
  intros [v Hv]. destruct (size game) eqn:E; [|lia].
  apply map_size_empty_iff in E. subst. by rewrite lookup_empty in Hv.
Qed.

Lemma total_length_pos (games : list dict) :
  games <> [] -> Forall has_name games ->
  0 < sum_Z (map (fun game : dict => Z.of_nat (size game)) games).
Proof.
  intros Hne Hn. destruct games as [|game games]; [done|]. clear Hne.
  apply Forall_cons in Hn as [H1 Hn]. apply size_has_name in H1.
  assert (0 <= sum_Z (map (fun game : dict => Z.of_nat (size game)) games)).
  { clear. induction games; simpl; lia. }
  simpl. lia.
Qed.

Local Abbreviation calculate :=
  (calculate_total_applicable_mechanics Model generate_content format_number).

(** The method on a loaded analyser and records that all have a name,
    when the final division gives a float: it returns, and the result is
    made of the sums of the outcomes. *)
Lemma calculate_spec (games : list dict) (self : analyser Model) (average : Py.float) :
  is_Some (cleaned_dataset self) -> Forall has_name games ->
  let os := outcomes_of games (model self) in
  let total_length := sum_Z (map (fun game : dict => Z.of_nat (size game)) games) in
  let counter := Counter.update (concat (map assigned_mechanics os)) [] in
  Py.truediv (sum_Z (map counted os)) total_length = Ok average ->
  exists self' rest,
    calculate games self
    = (Ok {| average_applicable_mechanics := average;
             least_ten_mechanics := take 10 (reverse (Counter.most_common_all counter));
             top_ten_mechanics := Counter.most_common 10 counter;
             unassigned_mechanics :=
               list_to_set (concat (map listed_mechanics os))
               ∖ list_to_set (concat (map assigned_mechanics os)) |}, self')
    /\ model self' = model_after_games games (model self)
    /\ cleaned_dataset self' = cleaned_dataset self
    /\ exists ls,
         stdout self'
         = stdout self ++ ls
           ++ [Blank; TotalFound (sum_Z (map counted os)); GroundTruth total_length]
           ++ rest
         /\ Forall2 (fun go l => reported go.1 go.2 l) (zip games os) ls.
Proof.
  intros [df Hdf] Hn os total_length counter Hdiv.
  unfold calculate_total_applicable_mechanics.
  rewrite (bind_ok _ _ self df self) by (unfold loaded; by rewrite Hdf).
  destruct (loop_spec games (enter Model self) Hn)
    as (f1 & Hl & Ht & Hc & Ha & Hm & Hd & ls & Ho & Hr).
  erewrite bind_ok by exact Hl.
  cbn [enter this model total_applicable_mechanics mechanic_counter all_mechanics] in *.
  rewrite Z.add_0_l in Ht.
  destruct (after_loop_spec games f1 average) as (f2 & Hal & Hm2 & Hd2 & rest & Ho2).
  { by rewrite Ht. }
  rewrite Hal.
  exists (this f2), rest. split; [|split; [congruence | split; [congruence|]]].
  2:{ exists ls. split; [|done]. rewrite Ho2, Ho, Ht. by rewrite <- app_assoc. }
  do 2 f_equal. rewrite Hc, Ha. fold os. f_equal.
  rewrite keys_update, union_empty_l_L. f_equal.
  change (Counter.keys []) with (@nil string). by rewrite list_to_set_nil, union_empty_l_L.
Qed.

(** The same when the final division raises: the games have been
    processed, their lines are written, and the error of the division
    leaves the method. *)
Lemma calculate_raises (games : list dict) (self : analyser Model) (e : exn) :
  is_Some (cleaned_dataset self) -> Forall has_name games ->
  let os := outcomes_of games (model self) in
  Py.truediv (sum_Z (map counted os))
    (sum_Z (map (fun game : dict => Z.of_nat (size game)) games)) = Err e ->
  exists self' ls,
    calculate games self = (Err e, self')
    /\ model self' = model_after_games games (model self)
    /\ cleaned_dataset self' = cleaned_dataset self
    /\ stdout self' = stdout self ++ ls
    /\ Forall2 (fun go l => reported go.1 go.2 l) (zip games os) ls.
Proof.
  intros [df Hdf] Hn os Hdiv.
  unfold calculate_total_applicable_mechanics.
  rewrite (bind_ok _ _ self df self) by (unfold loaded; by rewrite Hdf).
  destruct (loop_spec games (enter Model self) Hn)
    as (f1 & Hl & Ht & Hc & Ha & Hm & Hd & ls & Ho & Hr).
  erewrite bind_ok by exact Hl.
  cbn [enter this model total_applicable_mechanics mechanic_counter all_mechanics] in *.
  rewrite Z.add_0_l in Ht.
  rewrite (after_loop_raises games f1 e) by (by rewrite Ht).
  exists (this f1), ls. repeat split; done.
Qed.

(** The final division of a run: it is not by 0 when there is a game and
    every record has a name, and it gives a float when the total of the
    counts is below [2^1023] in absolute value. *)
Lemma final_division (games : list dict) (total : Z) :
  games <> [] -> Forall has_name games -> Z.abs total < 2 ^ 1023 ->
  exists average,
    Py.truediv total (sum_Z (map (fun game : dict => Z.of_nat (size game)) games))
    = Ok average.
Proof.
  intros Hne Hn Ht. apply truediv_ok; [|done].
  pose proof (total_length_pos games Hne Hn). lia.
Qed.

(** A record without a name ends the loop with [KeyError]: the records
    before it are handled, the handler of this one raises. *)
Lemma loop_no_name (games : list dict) : forall f : frame Model,
  ~ Forall has_name games ->
  exists f', for_each games step f = (Err (KeyError "Name"), f').
Proof.
  induction games as [|game games IH]; intros f Hn.
  - destruct Hn. constructor.
  - cbn [for_each]. destruct (game !! "Name") as [name|] eqn:Hname.
    + destruct (step_spec game f name Hname) as (f1 & l & Hs & _).
      destruct (IH f1) as [f' Hf'].
      { intros H. apply Hn. constructor; [by exists name | done]. }
      exists f'. by erewrite bind_ok by exact Hs.
    + exists f. erewrite bind_err; [done|]. by apply step_no_name.
Qed.

Lemma calculate_no_name (games : list dict) (self : analyser Model) :
  is_Some (cleaned_dataset self) -> ~ Forall has_name games ->
  exists self', calculate games self = (Err (KeyError "Name"), self').
Proof.
  intros [df Hdf] Hn. unfold calculate_total_applicable_mechanics.
  rewrite (bind_ok _ _ self df self) by (unfold loaded; by rewrite Hdf).
  destruct (loop_no_name games (enter Model self) Hn) as [f' Hf'].
  erewrite bind_err by exact Hf'. by eexists.
Qed.

Lemma calculate_not_loaded (games : list dict) (self : analyser Model) :
  cleaned_dataset self = None -> calculate games self = (Err not_loaded, self).
Proof.
  intros Hdf. unfold calculate_total_applicable_mechanics.
  erewrite bind_err; [done|]. unfold loaded. by rewrite Hdf.
Qed.

Lemma elem_of_concat {A} (x : A) (ls : list (list A)) :
  x ∈ concat ls <-> exists l, x ∈ l /\ l ∈ ls.
Proof.
  induction ls as [|l ls IH]; simpl.
  - split; [by intros ?%elem_of_nil | by intros (? & _ & ?%elem_of_nil)].
  - rewrite elem_of_app, IH. split.
    + intros [H | (l' & H1 & H2)]; [exists l | exists l']; split; auto; by constructor.
    + intros (l' & H1 & H2). apply elem_of_cons in H2 as [-> | H2]; eauto.
Qed.

(** C10. On the empty sequence of games the method does not return: the
    sum of the record lengths is 0 and the division raises
    [ZeroDivisionError] (on an analyser whose dataset is loaded; the
    object and the output are as before the call). *)
Theorem C10_empty_sequence_divides_by_zero (self : analyser Model) :
  is_Some (cleaned_dataset self) ->
  sum_Z (map (fun game : dict => Z.of_nat (size game)) []) = 0
  /\ calculate [] self = (Err ZeroDivisionError, self).
Proof.
  intros [df Hdf]. split; [done|]. unfold calculate_total_applicable_mechanics.
  rewrite (bind_ok _ _ self df self) by (unfold loaded; by rewrite Hdf).
  reflexivity.
Qed.

(** C2. After the batch, the never-assigned set is the set of the
    untrimmed comma-split substrings of the games whose mechanics were
    listed, minus the set of the trimmed entries that were tallied.  (The
    method returns when the dataset is loaded, the list is not empty, every
    record has a name and the final division gives a float, which it does
    when the total of the counts is below [2^1023] in absolute value.) *)
Theorem C2_never_assigned (games : list dict) (self : analyser Model) :
  is_Some (cleaned_dataset self) -> games <> [] -> Forall has_name games ->
  let os := outcomes_of games (model self) in
  Z.abs (sum_Z (map counted os)) < 2 ^ 1023 ->
  exists s self',
    calculate games self = (Ok s, self')
    /\ unassigned_mechanics s
       = list_to_set (concat (map listed_mechanics os))
         ∖ list_to_set (concat (map assigned_mechanics os))
    /\ forall x : string,
         x ∈ unassigned_mechanics s
         <-> (exists o, o ∈ os /\ x ∈ listed_mechanics o)
             /\ ~ (exists o, o ∈ os /\ x ∈ assigned_mechanics o).
Proof.
  intros Hdf Hne Hn os Hsmall.
  destruct (final_division games _ Hne Hn Hsmall) as [average Hdiv].
  destruct (calculate_spec games self average Hdf Hn Hdiv) as (self' & rest & Hc & _).
  eexists _, self'. split; [exact Hc|]. cbn [unassigned_mechanics]. fold os.
  split; [done|]. intros x.
  rewrite elem_of_difference, !elem_of_list_to_set.
  rewrite !elem_of_concat.
  assert (Hmap : forall (g : outcome -> list string),
             (exists l, x ∈ l /\ l ∈ map g os) <-> (exists o, o ∈ os /\ x ∈ g o)).
  { intros g. split.
    - intros (l & Hx & Hl). apply list_elem_of_fmap in Hl as (o & -> & Ho). eauto.
    - intros (o & Ho & Hx). exists (g o). split; [done|].
      apply list_elem_of_fmap. eauto. }
  by rewrite !Hmap.
Qed.

(** C3. The ground-truth denominator is the sum over the input games of
    the number of keys of the game's record, and it is not 0 (the dataset
    is loaded, the list is not empty and every record has a name).  The
    method returns exactly when the total of the parsed counts divided by
    that denominator is a float, as it is when the total is below [2^1023]
    in absolute value: then the denominator is what is printed as the
    ground truth, and the average returned is that quotient, the double
    nearest to it.  Otherwise the quotient is too large for a float and
    [OverflowError] leaves the method. *)
Theorem C3_average_over_record_lengths (games : list dict) (self : analyser Model) :
  is_Some (cleaned_dataset self) -> games <> [] -> Forall has_name games ->
  let total := sum_Z (map counted (outcomes_of games (model self))) in
  let total_length := sum_Z (map (fun game : dict => Z.of_nat (size game)) games) in
  0 < total_length
  /\ (forall average, Py.truediv total total_length = Ok average ->
        exists s self' before rest,
          calculate games self = (Ok s, self')
          /\ stdout self' = before ++ [Blank; TotalFound total; GroundTruth total_length] ++ rest
          /\ average_applicable_mechanics s = average
          /\ rounded_quotient average total total_length)
  /\ (Z.abs total < 2 ^ 1023 -> exists average, Py.truediv total total_length = Ok average)
  /\ (forall e, Py.truediv total total_length = Err e ->
        e = OverflowError "integer division result too large for a float"
        /\ exists self', calculate games self = (Err e, self')).
Proof.
  intros Hdf Hne Hn total total_length.
  pose proof (total_length_pos games Hne Hn) as Hpos. fold total_length in Hpos.
  split; [done|]. split; [|split].
  - intros average Hdiv.
    destruct (calculate_spec games self average Hdf Hn Hdiv)
      as (self' & rest & Hc & _ & _ & ls & Ho & _).
    eexists _, self', (stdout self ++ ls), rest. split; [exact Hc|].
    split; [by rewrite <- app_assoc|]. split; [done | by apply truediv_rounded].
  - by apply final_division.
  - intros e Hdiv. split.
    + destruct (truediv_raises _ _ _ Hdiv) as [[Hz _]|[_ He]]; [lia | done].
    + destruct (calculate_raises games self e Hdf Hn Hdiv) as (self' & ls & Hc & _).
      by exists self'.
Qed.

End Batch.

(** ** The batch on scripted answers *)

Lemma script_games_named :
  Forall has_name [Script.game "G1" "A, B"; Script.game "G2" "C"].
Proof. repeat constructor; by eexists. Qed.

Lemma C10_empty_sequence_divides_by_zero_witness :
  Script.calculate [Ok "1"] [] = (Err ZeroDivisionError, Script.loaded_analyser [Ok "1"]).
Proof.
  apply (C10_empty_sequence_divides_by_zero Script.generate_content Script.format_number
           (Script.loaded_analyser [Ok "1"])).
  by eexists.
Defined.

Lemma C2_never_assigned_witness :
  exists s self',
    Script.calculate [Ok "2"; Ok "x"] [Script.game "G1" "A, B"; Script.game "G2" "C"]
    = (Ok s, self')
    /\ unassigned_mechanics s = list_to_set ["A"; " B"; "C"] ∖ list_to_set ["A"; "B"].
Proof.
  destruct (C2_never_assigned Script.generate_content Script.format_number
              [Script.game "G1" "A, B"; Script.game "G2" "C"]
              (Script.loaded_analyser [Ok "2"; Ok "x"]))
    as (s & self' & H & Hu & _).
  - by eexists.
  - discriminate.
  - exact script_games_named.
  - vm_compute. reflexivity.
  - exists s, self'. split; [exact H | exact Hu].
Defined.

Lemma C3_average_over_record_lengths_witness :
  exists s self',
    Script.calculate [Ok "2"; Ok "x"] [Script.game "G1" "A, B"; Script.game "G2" "C"]
    = (Ok s, self')
    /\ average_applicable_mechanics s = Py.Finite false (2 ^ 52) (-53).
Proof.
  destruct (C3_average_over_record_lengths Script.generate_content Script.format_number
              [Script.game "G1" "A, B"; Script.game "G2" "C"]
              (Script.loaded_analyser [Ok "2"; Ok "x"]))
    as (_ & Hreturns & _).
  - by eexists.
  - discriminate.
  - exact script_games_named.
  - destruct (Hreturns (Py.Finite false (2 ^ 52) (-53)))
      as (s & self' & _ & _ & H & _ & Ha & _).
    + vm_compute. reflexivity.
    + exists s, self'. split; [exact H | exact Ha].
Defined.

(** The never-assigned set is taken between untrimmed and trimmed forms: a
    mechanic that was tallied as ["B"] stays in the set as [" B"]. *)
Example never_assigned_keeps_untrimmed_form :
  exists s self',
    Script.calculate [Ok "2"] [Script.game "G1" "A, B"] = (Ok s, self')
    /\ top_ten_mechanics s = [("A", 1%nat); ("B", 1%nat)]
    /\ elements (unassigned_mechanics s) = [" B"].
Proof.
  do 2 eexists. split; [vm_compute; reflexivity|]. split; vm_compute; reflexivity.
Qed.

(** The scenario of the specification: three games, the answers 2, 5 and
    ["bad"]. *)
Example three_games :
  exists s self',
    Script.calculate [Ok "2"; Ok "5"; Ok "bad"]
      [Script.game "G1" "Dice Rolling,Trading,Area Control";
       Script.game "G2" "Drafting,Worker Placement";
       Script.game "G3" "Auction"] = (Ok s, self')
    /\ top_ten_mechanics s
       = [("Dice Rolling", 1%nat); ("Trading", 1%nat); ("Drafting", 1%nat);
          ("Worker Placement", 1%nat)]
    /\ average_applicable_mechanics s = Py.Finite false 0x12aaaaaaaaaaab (-52)
    /\ "Area Control" ∈ unassigned_mechanics s
    /\ "Auction" ∈ unassigned_mechanics s.
Proof.
  do 2 eexists. split; [vm_compute; reflexivity|].
  split; [vm_compute; reflexivity|]. split; [vm_compute; reflexivity|].
  split; apply (bool_decide_unpack _); vm_compute; exact I.
Qed.

(** The slice [l[:k]] by cases of [k]. *)
Lemma slice_to_nonneg {A} (k : Z) (l : list A) :
  0 <= k -> Py.slice_to k l = take (Z.to_nat k) l.
Proof. intros H. unfold Py.slice_to. destruct (Z.ltb_spec k 0); [lia | done]. Qed.

Lemma slice_to_all {A} (k : Z) (l : list A) :
  Z.of_nat (length l) <= k -> Py.slice_to k l = l.
Proof.
  intros H. rewrite slice_to_nonneg by lia. apply take_ge. lia.
Qed.

Lemma slice_to_zero {A} (l : list A) : Py.slice_to 0 l = [].
Proof. reflexivity. Qed.

Lemma slice_to_negative {A} (k : Z) (l : list A) :
  k < 0 -> Py.slice_to k l = take (length l - Z.to_nat (- k)) l.
Proof.
  intros H. unfold Py.slice_to. destruct (Z.ltb_spec k 0); [|lia].
  f_equal. lia.
Qed.

(** C1. The entries tallied for a game are [split(",")[:k]].  For a
    negative count the slice is not empty: with the mechanics ["A,B,C"] and
    the answer ["-1"] the method tallies [A] and [B], and only [C] is left
    as never assigned. *)
Theorem C1_negative_count_tallies_a_prefix :
  assigned_mechanics (Counted "A,B,C" (-1)) = ["A"; "B"]
  /\ exists s self',
       Script.calculate [Ok "-1"] [Script.game "G1" "A,B,C"] = (Ok s, self')
       /\ top_ten_mechanics s = [("A", 1%nat); ("B", 1%nat)]
       /\ elements (unassigned_mechanics s) = ["C"].
Proof.
  split; [reflexivity|]. do 2 eexists. split; [vm_compute; reflexivity|].
  split; vm_compute; reflexivity.
Qed.

(** C7. A record without the key ['Name'] is not skipped: the handler reads
    [game['Name']] again, the [KeyError] leaves the method, and the games
    after it are not processed (the script is untouched, nothing is
    written). *)
Theorem C7_nameless_record_aborts_batch :
  Script.calculate [Ok "1"] [Script.nameless "A,B"; Script.game "G" "A"]
  = (Err (KeyError "Name"), Script.loaded_analyser [Ok "1"]).
Proof. vm_compute. reflexivity. Qed.

(** ** Loading and cleaning *)

Lemma select_map_filter {A} (p : A -> bool) (l : list A) :
  pd.select (map p l) l = List.filter p l.
Proof. induction l as [|x l IH]; simpl; [done|]. destruct (p x); by rewrite IH. Qed.

Lemma select_map_filter_on {A B} (g : A -> B) (p : B -> bool) (l : list A) :
  pd.select (map p (map g l)) l = List.filter (fun x => p (g x)) l.
Proof. rewrite map_map. apply select_map_filter. Qed.

Lemma filter_filter_andb {A} (p q : A -> bool) (l : list A) :
  List.filter q (List.filter p l) = List.filter (fun x => p x && q x) l.
Proof.
  induction l as [|x l IH]; simpl; [done|].
  destruct (p x); simpl; [destruct (q x)|]; by rewrite IH.
Qed.

Lemma filter_sublist {A} (p : A -> bool) (l : list A) : List.filter p l `sublist_of` l.
Proof.
  induction l as [|x l IH]; simpl; [constructor|].
  destruct (p x); by constructor.
Qed.

Lemma elem_of_filter_bool {A} (p : A -> bool) (l : list A) (x : A) :
  x ∈ List.filter p l <-> x ∈ l /\ p x = true.
Proof. rewrite !list_elem_of_In. apply filter_In. Qed.

Lemma required_columns_check (df : pd.DataFrame) :
  forallb (fun col => bool_decide (col ∈ pd.columns df)) required_columns = true
  <-> has_required_columns df.
Proof.
  unfold has_required_columns. rewrite forallb_forall, Forall_forall.
  split; intros H col Hc.
  - apply list_elem_of_In in Hc. exact (bool_decide_eq_true_1 _ (H col Hc)).
  - apply bool_decide_eq_true_2, H. by apply list_elem_of_In.
Qed.

Section Load.

Context {Model : Type}.
Variable read_csv : string -> string -> result pd.DataFrame.

Local Abbreviation load := (load_dataset_clean Model read_csv).

(** The reader reports a missing file. *)
Lemma load_file_not_found (sep msg : string) (self : analyser Model) :
  read_csv (dataset_path self) sep = Err (FileNotFoundError msg) ->
  load sep self
  = (Err (FileNotFoundError ("File not found: " +:+ dataset_path self)), self).
Proof.
  intros H. unfold load_dataset_clean, bind, gets, try_except, lift, raise.
  by rewrite H.
Qed.

(** Any other error of the reader leaves the method as it is. *)
Lemma load_reader_error (sep : string) (e : exn) (self : analyser Model) :
  read_csv (dataset_path self) sep = Err e ->
  (forall msg, e <> FileNotFoundError msg) ->
  load sep self = (Err e, self).
Proof.
  intros H Hne. unfold load_dataset_clean, bind, gets, try_except, lift, raise.
  rewrite H. destruct e; try done. by destruct (Hne msg).
Qed.

Lemma load_missing_columns (sep : string) (df : pd.DataFrame) (self : analyser Model) :
  read_csv (dataset_path self) sep = Ok df ->
  ~ has_required_columns df ->
  load sep self
  = (Err (ValueError "Dataset is missing required columns"), set_dataset Model df self).
Proof.
  intros H Hc. unfold load_dataset_clean, bind, gets, try_except, lift, raise, modify.
  rewrite H. destruct (forallb _ required_columns) eqn:E; [|done].
  by apply required_columns_check in E.
Qed.

Lemma load_cleans (sep : string) (df : pd.DataFrame) (self : analyser Model) :
  read_csv (dataset_path self) sep = Ok df ->
  has_required_columns df ->
  load sep self
  = (Ok (clean df),
     set_cleaned_dataset Model (clean df)
       (set_cleaned_dataset Model (pd.dropna required_columns df)
          (set_dataset Model df self))).
Proof.
  intros H Hc. unfold load_dataset_clean, bind, gets, try_except, lift, raise, modify, ret.
  rewrite H. apply required_columns_check in Hc as Hc'. rewrite Hc'. cbn [negb].
  unfold pd.getitem. cbn [pd.dropna pd.columns pd.rows].
  assert (Hy : "Year Published" ∈ pd.columns df).
  { unfold has_required_columns, required_columns in Hc.
    apply Forall_cons in Hc as [_ Hc]. by apply Forall_cons in Hc as [? _]. }
  rewrite (bool_decide_eq_true_2 _ Hy).
  assert (Hclean : pd.loc
            (map (fun v => pd.ne v 0)
               (map (fun r => pd.at_ (pd.columns df) r "Year Published")
                  (List.filter
                     (fun r => forallb (fun c => negb (pd.isna (pd.at_ (pd.columns df) r c)))
                                 required_columns) (pd.rows df))))
            (pd.dropna required_columns df) = clean df).
  { unfold pd.loc, clean. cbn [pd.dropna pd.columns pd.rows]. f_equal.
    rewrite select_map_filter_on, filter_filter_andb.
    apply filter_ext. intros r. unfold kept. cbn [forallb required_columns].
    by rewrite andb_true_r, !andb_assoc. }
  by rewrite Hclean.
Qed.

(** C4. For every parsed table with the required columns, the cleaned
    dataset that the method returns (and keeps) has exactly the rows whose
    Name, Year Published and Mechanics are present and whose Year Published
    is not 0, in their original relative order. *)
Theorem C4_cleaned_rows (sep : string) (df : pd.DataFrame) (self : analyser Model) :
  read_csv (dataset_path self) sep = Ok df ->
  has_required_columns df ->
  exists cleaned self',
    load sep self = (Ok cleaned, self')
    /\ cleaned_dataset self' = Some cleaned
    /\ pd.columns cleaned = pd.columns df
    /\ pd.rows cleaned = List.filter (kept (pd.columns df)) (pd.rows df)
    /\ pd.rows cleaned `sublist_of` pd.rows df
    /\ forall r, r ∈ pd.rows cleaned
                 <-> r ∈ pd.rows df
                     /\ pd.at_ (pd.columns df) r "Name" <> NaN
                     /\ pd.at_ (pd.columns df) r "Year Published" <> NaN
                     /\ pd.at_ (pd.columns df) r "Mechanics" <> NaN
                     /\ forall q, pd.at_ (pd.columns df) r "Year Published" = Num q ->
                                  ~ (q == 0)%Q.
Proof.
  intros H Hc. eexists _, _. split; [by apply load_cleans|].
  cbn [cleaned_dataset set_cleaned_dataset clean pd.columns pd.rows].
  split; [done|]. split; [done|]. split; [done|]. split; [apply filter_sublist|].
  intros r. rewrite elem_of_filter_bool. unfold kept.
  destruct (pd.at_ (pd.columns df) r "Name") as [|qn|sn];
    destruct (pd.at_ (pd.columns df) r "Mechanics") as [|qm|sm];
    destruct (pd.at_ (pd.columns df) r "Year Published") as [|qy|sy]; simpl;
    try (split; [intros [_ ?]; discriminate | intros (_ & ? & ? & ? & _); done]);
    try (split; [intros [? _]; repeat split; done | intros (? & _); done]).
  all: split;
    [ intros [Hr Hk]; repeat split; try done;
      intros q [= <-] Hq; apply Qeq_bool_iff in Hq;
      change (inject_Z 0) with 0%Q in Hk; by rewrite Hq in Hk
    | intros (Hr & _ & _ & _ & Hz); split; [done|];
      apply negb_true_iff, not_true_is_false; intros Hq;
      apply Qeq_bool_iff in Hq; by apply (Hz qy) ].
Qed.

(** C9 (amended). The method raises [FileNotFoundError] when the reader
    reports that the file does not exist, and [ValueError] when a required
    column is absent from the parsed header; when the reader raises another
    error, that error leaves the method; in all other cases the method
    returns the cleaned dataset and keeps it. *)
Theorem C9_load_outcomes (sep : string) (self : analyser Model) :
  (forall msg, read_csv (dataset_path self) sep = Err (FileNotFoundError msg) ->
     load sep self
     = (Err (FileNotFoundError ("File not found: " +:+ dataset_path self)), self))
  /\ (forall df, read_csv (dataset_path self) sep = Ok df -> ~ has_required_columns df ->
        load sep self
        = (Err (ValueError "Dataset is missing required columns"),
           set_dataset Model df self))
  /\ (forall e, read_csv (dataset_path self) sep = Err e ->
        (forall msg, e <> FileNotFoundError msg) ->
        load sep self = (Err e, self))
  /\ (forall df, read_csv (dataset_path self) sep = Ok df -> has_required_columns df ->
        exists self',
          load sep self = (Ok (clean df), self')
          /\ cleaned_dataset self' = Some (clean df)).
Proof.
  repeat split.
  - intros msg. apply load_file_not_found.
  - intros df. apply load_missing_columns.
  - intros e. apply load_reader_error.
  - intros df H Hc. eexists. split; [by apply load_cleans | done].
Qed.

End Load.

Lemma script_table_columns : has_required_columns Script.table.
Proof. repeat constructor. Qed.

Lemma C4_cleaned_rows_witness :
  exists cleaned self',
    load_dataset_clean Script.Model Script.read_csv ";" (Script.fresh "dataset.csv")
    = (Ok cleaned, self')
    /\ pd.rows cleaned
       = [ [Str "G1"; Num (inject_Z 2017); Str "Dice Rolling,Trading,Area Control"; Num (8 # 1)];
           [Str "G2"; Num (inject_Z 2015); Str "Drafting,Worker Placement"; Num (8 # 1)];
           [Str "G4"; Num (inject_Z 1995); Str "Auction and Bidding"; NaN] ].
Proof.
  destruct (C4_cleaned_rows Script.read_csv ";" Script.table (Script.fresh "dataset.csv"))
    as (cleaned & self' & H & _ & _ & Hr & _).
  - reflexivity.
  - exact script_table_columns.
  - exists cleaned, self'. split; [exact H|]. rewrite Hr. reflexivity.
Defined.

Lemma C9_load_outcomes_witness :
  load_dataset_clean Script.Model Script.read_csv ";" (Script.fresh "missing.csv")
  = (Err (FileNotFoundError "File not found: missing.csv"), Script.fresh "missing.csv")
  /\ exists self',
       load_dataset_clean Script.Model Script.read_csv ";" (Script.fresh "dataset.csv")
       = (Ok (clean Script.table), self')
       /\ cleaned_dataset self' = Some (clean Script.table).
Proof.
  split.
  - apply (proj1 (C9_load_outcomes Script.read_csv ";" (Script.fresh "missing.csv"))
             "missing.csv").
    reflexivity.
  - apply (proj2 (proj2 (proj2
             (C9_load_outcomes Script.read_csv ";" (Script.fresh "dataset.csv"))))
             Script.table).
    + reflexivity.
    + exact script_table_columns.
Defined.

(** C9 as stated fails on a file that exists and cannot be read: the
    reader does not report a missing file, no header is parsed, and the
    method does not return a dataset: the reader's error leaves it. *)
Lemma C9_unreadable_file_counterexample :
  (forall msg, Script.read_csv "locked.csv" ";" <> Err (FileNotFoundError msg))
  /\ (forall df, Script.read_csv "locked.csv" ";" <> Ok df)
  /\ load_dataset_clean Script.Model Script.read_csv ";" (Script.fresh "locked.csv")
     = (Err (OtherException "PermissionError: [Errno 13] Permission denied: 'locked.csv'"),
        Script.fresh "locked.csv")
  /\ ~ exists cleaned self',
         load_dataset_clean Script.Model Script.read_csv ";" (Script.fresh "locked.csv")
         = (Ok cleaned, self').
Proof.
  repeat split; try done.
  intros (cleaned & self' & H). discriminate H.
Qed.

(** ** Verifying one game *)

Lemma count_nonneg (c : ascii) (s : string) : 0 <= Py.count c s.
Proof. induction s as [|c' s IH]; simpl; [lia|]. destruct (Ascii.eqb c' c); lia. Qed.

Lemma split_nonempty (sep : ascii) (s : string) : Py.split sep s <> [].
Proof.
  induction s as [|c s IH]; simpl; [done|].
  destruct (Ascii.eqb c sep); [done|]. by destruct (Py.split sep s).
Qed.

Lemma count_cons_ne (sep c : ascii) (s : string) :
  Ascii.eqb c sep = false -> Py.count sep (String c s) = Py.count sep s.
Proof. intros H. simpl. by rewrite H. Qed.

(** [mechanics.count(",")] is the number of commas of the string, and one
    less than the number of the entries between them. *)
Lemma count_commas (s : string) : Py.count ","%char s = Z.of_nat (commas s).
Proof.
  unfold commas. induction s as [|c s IH]; [done|].
  cbn [Py.count String.list_ascii_of_string List.filter].
  destruct (Ascii.eqb c ","); cbn [length]; lia.
Qed.

Lemma split_length (sep : ascii) (s : string) :
  Z.of_nat (length (Py.split sep s)) = Py.count sep s + 1.
Proof.
  induction s as [|c s IH]; [done|].
  pose proof (split_nonempty sep s) as Hne.
  cbn [Py.split Py.count]. destruct (Ascii.eqb c sep).
  - cbn [length]. lia.
  - destruct (Py.split sep s) as [|h t]; [done|]. cbn [length] in *. lia.
Qed.

Lemma filter_nil_iff {A} (p : A -> bool) (l : list A) :
  List.filter p l = [] <-> forall x, x ∈ l -> p x = false.
Proof.
  induction l as [|y l IH]; simpl.
  - split; [by intros _ x ?%elem_of_nil | done].
  - destruct (p y) eqn:E.
    + split; [done|]. intros H. specialize (H y (list_elem_of_here _ _)). congruence.
    + rewrite IH. split.
      * intros H x [->|Hx]%elem_of_cons; auto.
      * intros H x Hx. apply H. by constructor.
Qed.

Section Verify.

Context {Model : Type}.
Variable generate_content : Model -> string -> result string * Model.

Local Abbreviation verify := (verify_mechanics_with_genai Model generate_content).

(** The single-game method, up to the call of the model, for a game that
    the dataset holds with a string of mechanics. *)
Lemma verify_asks (game_name : string) (df : pd.DataFrame) (self : analyser Model)
    (r : list cell) (rest : list (list cell)) (mechanics : string) :
  cleaned_dataset self = Some df ->
  "Name" ∈ pd.columns df -> "Mechanics" ∈ pd.columns df ->
  List.filter (fun r => pd.eq_str (pd.at_ (pd.columns df) r "Name") game_name) (pd.rows df)
  = r :: rest ->
  pd.at_ (pd.columns df) r "Mechanics" = Str mechanics ->
  verify game_name self
  = (let* response := ask Model generate_content
                        (make_prompt game_name (prompt_mechanics mechanics)) in
     let* count := lift (parse_count response) in
     let* accuracy := lift (Py.truediv count (Py.count ","%char mechanics + 1)) in
     let* _ := print Model (VerifyCount game_name (Py.strip response)) in
     let* _ := print Model (VerifyAccuracy game_name accuracy) in
     let* _ := print Model Blank in
     ret accuracy) self.
Proof.
  intros Hdf Hname Hmech Hrows Hcell. unfold verify_mechanics_with_genai.
  rewrite (bind_ok _ _ self df self) by (unfold loaded; by rewrite Hdf).
  unfold pd.getitem at 1. rewrite (bool_decide_eq_true_2 _ Hname).
  erewrite bind_ok by reflexivity.
  unfold pd.loc, pd.empty. cbn [pd.rows pd.columns].
  rewrite select_map_filter_on, Hrows.
  unfold pd.getitem. cbn [pd.rows pd.columns]. rewrite (bool_decide_eq_true_2 _ Hmech).
  erewrite bind_ok by reflexivity. cbn [map head default]. rewrite Hcell.
  erewrite bind_ok by reflexivity. reflexivity.
Qed.

(** C8. For a game of the loaded dataset and an answer that parses to a
    count [k], the method divides [k] by the declared count of the game:
    the number of commas of the raw mechanics string (the string as it is
    in the table, before the rewriting for the prompt) plus 1, which is the
    number of its comma-separated entries.  It returns that quotient, the
    double nearest to it, exactly when the quotient is a float, as it is
    for [k] below [2^1023] in absolute value; otherwise [OverflowError]
    leaves the method, after the model was asked.  For a name that no row
    carries, the method raises the [ValueError] that says the game is not
    found. *)
Theorem C8_single_game_ratio (game_name : string) (df : pd.DataFrame) (self : analyser Model) :
  cleaned_dataset self = Some df ->
  "Name" ∈ pd.columns df ->
  let named r := pd.eq_str (pd.at_ (pd.columns df) r "Name") game_name in
  (forall r rest mechanics text m' k,
      List.filter named (pd.rows df) = r :: rest ->
      "Mechanics" ∈ pd.columns df ->
      pd.at_ (pd.columns df) r "Mechanics" = Str mechanics ->
      generate_content (model self) (make_prompt game_name (prompt_mechanics mechanics))
      = (Ok text, m') ->
      parse_count text = Ok k ->
      let declared := Z.of_nat (commas mechanics) + 1 in
      declared = Z.of_nat (length (Py.split ","%char mechanics))
      /\ (forall accuracy, Py.truediv k declared = Ok accuracy ->
            rounded_quotient accuracy k declared
            /\ exists self',
                 verify game_name self = (Ok accuracy, self')
                 /\ model self' = m'
                 /\ cleaned_dataset self' = Some df)
      /\ (Z.abs k < 2 ^ 1023 -> exists accuracy, Py.truediv k declared = Ok accuracy)
      /\ (forall e, Py.truediv k declared = Err e ->
            e = OverflowError "integer division result too large for a float"
            /\ verify game_name self = (Err e, set_model Model m' self)))
  /\ ((forall r, r ∈ pd.rows df -> pd.at_ (pd.columns df) r "Name" <> Str game_name) ->
      verify game_name self
      = (Err (ValueError ("Game '" +:+ game_name +:+ "' not found in the dataset.")), self)).
Proof.
  intros Hdf Hname named. split.
  - intros r rest mechanics text m' k Hrows Hmech Hcell Hgen Hparse declared.
    assert (Hdecl : Py.count ","%char mechanics + 1 = declared)
      by (unfold declared; by rewrite count_commas).
    split; [by rewrite split_length|].
    rewrite (verify_asks game_name df self r rest mechanics) by done.
    erewrite bind_ok by (unfold ask; rewrite Hgen; reflexivity).
    erewrite bind_ok by (unfold lift; rewrite Hparse; reflexivity).
    rewrite Hdecl. split; [|split].
    + intros accuracy Hdiv. split; [by apply truediv_rounded|].
      erewrite bind_ok by (unfold lift; rewrite Hdiv; reflexivity).
      eexists. split; [reflexivity|]. done.
    + intros Hk. apply truediv_ok; [|done]. unfold declared. lia.
    + intros e Hdiv. split.
      * destruct (truediv_raises _ _ _ Hdiv) as [[Hz _]|[_ He]]; [|done].
        unfold declared in Hz. lia.
      * erewrite bind_err; [reflexivity|]. unfold lift. by rewrite Hdiv.
  - intros Habsent. unfold verify_mechanics_with_genai.
    rewrite (bind_ok _ _ self df self) by (unfold loaded; by rewrite Hdf).
    unfold pd.getitem at 1. rewrite (bool_decide_eq_true_2 _ Hname).
    erewrite bind_ok by reflexivity.
    unfold pd.loc, pd.empty. cbn [pd.rows pd.columns].
    rewrite select_map_filter_on. fold named.
    assert (Hnone : List.filter named (pd.rows df) = []).
    { apply filter_nil_iff. intros r Hr. specialize (Habsent r Hr). unfold named.
      destruct (pd.at_ (pd.columns df) r "Name") as [| |t]; try done.
      simpl. apply bool_decide_eq_false_2. congruence. }
    by rewrite Hnone.
Qed.

End Verify.

(** The denominator is counted on the raw string: the rewriting of "and"
    for the prompt adds a comma that is not counted. *)
Example declared_count_ignores_prompt_rewriting :
  Py.count ","%char "A and B,C" + 1 = 2
  /\ prompt_mechanics "A and B,C" = "A, B, C"
  /\ Py.count ","%char (prompt_mechanics "A and B,C") + 1 = 3.
Proof. repeat split. Qed.

Lemma C8_single_game_ratio_witness :
  exists self',
    verify_mechanics_with_genai Script.Model Script.generate_content "G1"
      (Script.loaded_analyser [Ok " 2 "])
    = (Ok (Py.Finite false 0x15555555555555 (-53)), self')
  /\ verify_mechanics_with_genai Script.Model Script.generate_content "G9"
       (Script.loaded_analyser [Ok " 2 "])
     = (Err (ValueError "Game 'G9' not found in the dataset."),
        Script.loaded_analyser [Ok " 2 "]).
Proof.
  destruct (C8_single_game_ratio Script.generate_content "G1" (clean Script.table)
              (Script.loaded_analyser [Ok " 2 "]) eq_refl) as [Hfound _].
  { vm_compute. repeat constructor. }
  destruct (Hfound [Str "G1"; Num (inject_Z 2017); Str "Dice Rolling,Trading,Area Control";
                    Num (8 # 1)]
              [] "Dice Rolling,Trading,Area Control" " 2 " [] 2)
    as (_ & Hreturns & _); try reflexivity.
  { apply (bool_decide_unpack _). vm_compute. exact I. }
  destruct (Hreturns (Py.Finite false 0x15555555555555 (-53))) as (_ & self' & H & _).
  { vm_compute. reflexivity. }
  exists self'. split; [exact H|].
  apply (C8_single_game_ratio Script.generate_content "G9" (clean Script.table)
           (Script.loaded_analyser [Ok " 2 "]) eq_refl).
  - repeat constructor.
  - intros r Hr. repeat (apply elem_of_cons in Hr as [->|Hr]; [discriminate|]).
    by apply elem_of_nil in Hr.
Defined.

(** ** Sorting *)

Section InsertionSort.

Context {A : Type} (le : A -> A -> bool) (P : A -> Prop).
Hypothesis le_total : forall x y, P x -> P y -> le x y = true \/ le y x = true.
Hypothesis le_trans :
  forall x y z, P x -> P y -> P z -> le x y = true -> le y z = true -> le x z = true.

Local Abbreviation R := (fun x y : A => le x y = true).

Lemma insert_sorted_perm (x : A) (l : list A) : Py.insert_sorted le x l ≡ₚ x :: l.
Proof.
  induction l as [|y l IH]; simpl; [done|].
  destruct (le x y); [done|]. rewrite IH. apply Permutation_swap.
Qed.

Lemma sorted_perm (l : list A) : Py.sorted le l ≡ₚ l.
Proof.
  unfold Py.sorted. induction l as [|x l IH]; simpl; [done|].
  by rewrite insert_sorted_perm, IH.
Qed.

Lemma insert_sorted_strongly (x : A) (l : list A) :
  P x -> Forall P l -> StronglySorted R l -> StronglySorted R (Py.insert_sorted le x l).
Proof.
  intros Hx Hl Hs. induction l as [|y l IH]; simpl.
  - repeat constructor.
  - apply Forall_cons in Hl as [Hy Hl]. apply StronglySorted_cons in Hs as [Hyl Hs].
    destruct (le x y) eqn:E.
    + constructor; [by constructor|]. constructor; [done|].
      rewrite Forall_forall in Hyl, Hl |- *. intros z Hz.
      apply (le_trans x y z); auto.
    + constructor; [by apply IH|].
      rewrite insert_sorted_perm. constructor; [|done].
      destruct (le_total x y Hx Hy); congruence.
Qed.

Lemma sorted_strongly (l : list A) : Forall P l -> StronglySorted R (Py.sorted le l).
Proof.
  unfold Py.sorted. induction l as [|x l IH]; simpl; intros Hl; [constructor|].
  apply Forall_cons in Hl as [Hx Hl]. apply insert_sorted_strongly; auto.
  fold (Py.sorted le l). by rewrite sorted_perm.
Qed.

End InsertionSort.

Lemma stable_sort_sorts : sorts Script.stable_sort.
Proof.
  intros A le l. unfold Script.stable_sort. split; [apply sorted_perm|].
  intros Htot Htrans.
  apply (sorted_strongly le (fun x => x ∈ l)); auto. by apply Forall_forall.
Qed.

(** ** The order of the keys *)

Lemma forallb_elem_of {A} (p : A -> bool) (l : list A) (x : A) :
  forallb p l = true -> x ∈ l -> p x = true.
Proof. rewrite forallb_forall. intros H Hx. by apply H, list_elem_of_In. Qed.

Lemma le_total_comparable (l : list cell) (a b : cell) :
  pd.comparable l = true -> a ∈ l -> b ∈ l -> pd.le a b = true \/ pd.le b a = true.
Proof.
  unfold pd.comparable. intros [H|H]%orb_prop Ha Hb;
    pose proof (forallb_elem_of _ _ _ H Ha) as Ha';
    pose proof (forallb_elem_of _ _ _ H Hb) as Hb';
    destruct a as [|p|s], b as [|q|t]; try discriminate; simpl.
  - rewrite !Qle_bool_iff. destruct (Qlt_le_dec p q); [left; by apply Qlt_le_weak | by right].
  - apply String.leb_total.
Qed.

Lemma le_trans_comparable (a b c : cell) :
  pd.le a b = true -> pd.le b c = true -> pd.le a c = true.
Proof.
  destruct a as [|p|s], b as [|q|t], c as [|r|u]; try discriminate; simpl.
  - rewrite !Qle_bool_iff. apply Qle_trans.
  - intros H1%Is_true_true H2%Is_true_true. apply Is_true_true.
    exact (transitivity (R := String.le) H1 H2).
Qed.

Lemma filter_partition {A} (p : A -> bool) (l : list A) :
  List.filter (fun x => negb (p x)) l ++ List.filter p l ≡ₚ l.
Proof.
  induction l as [|x l IH]; simpl; [done|].
  destruct (p x); simpl.
  - by rewrite <- Permutation_middle, IH.
  - by rewrite IH.
Qed.

Lemma StronglySorted_weaken {A} (R R' : A -> A -> Prop) (P : A -> Prop) (l : list A) :
  (forall x y, P x -> P y -> R x y -> R' x y) ->
  Forall P l -> StronglySorted R l -> StronglySorted R' l.
Proof.
  intros Himp Hl Hs. induction Hs as [|x l Hs IH Hx]; [constructor|].
  apply Forall_cons in Hl as [Px Hl]. constructor; [by apply IH|].
  rewrite Forall_forall in Hx, Hl |- *. auto.
Qed.

Lemma StronglySorted_all {A} (R : A -> A -> Prop) (l : list A) :
  (forall x y, x ∈ l -> y ∈ l -> R x y) -> StronglySorted R l.
Proof.
  induction l as [|x l IH]; intros H; [constructor|]. constructor.
  - apply IH. intros y z Hy Hz. apply H; by constructor.
  - apply Forall_forall. intros y Hy. apply H; by constructor.
Qed.

(** ** Records *)

Lemma at_cons_eq (c : string) (cs : list string) (v : cell) (r : list cell) :
  pd.at_ (c :: cs) (v :: r) c = v.
Proof. unfold pd.at_. simpl. by rewrite bool_decide_eq_true_2. Qed.

Lemma at_cons_ne (c c' : string) (cs : list string) (v : cell) (r : list cell) :
  c <> c' -> pd.at_ (c' :: cs) (v :: r) c = pd.at_ cs r c.
Proof.
  intros Hne. unfold pd.at_. simpl. rewrite bool_decide_eq_false_2 by done.
  by destruct (pd.get_loc c cs).
Qed.

Lemma elem_of_zip_at (c : string) (cols : list string) : forall r : list cell,
  length r = length cols -> c ∈ cols -> (c, pd.at_ cols r c) ∈ zip cols r.
Proof.
  induction cols as [|c' cs IH]; intros r Hlen Hc; [by apply elem_of_nil in Hc|].
  destruct r as [|v r]; [discriminate|]. simpl.
  destruct (decide (c = c')) as [->|Hne].
  - rewrite at_cons_eq. by constructor.
  - rewrite at_cons_ne by done. constructor. apply IH; [by injection Hlen|].
    apply elem_of_cons in Hc as [?|?]; done.
Qed.

(** A record holds, under each column, the value of its row. *)
Lemma row_dict_lookup (cols : list string) (r : list cell) (c : string) :
  NoDup cols -> length r = length cols -> c ∈ cols ->
  pd.row_dict cols r !! c = Some (pd.at_ cols r c).
Proof.
  intros Hnd Hlen Hc. unfold pd.row_dict. apply elem_of_list_to_map.
  - rewrite fmap_reverse, fst_zip by lia. by rewrite reverse_Permutation.
  - apply elem_of_reverse. by apply elem_of_zip_at.
Qed.

(** ** The top 200 *)

Lemma key_order_missing (ascending : bool) (a : cell) : key_order ascending a NaN.
Proof. by destruct a. Qed.

Lemma key_order_present (ascending : bool) (a b : cell) :
  pd.isna a = false -> pd.isna b = false ->
  (if ascending then pd.le a b else pd.le b a) = true -> key_order ascending a b.
Proof. destruct a, b, ascending; simpl; done. Qed.

Section Top.

Context {Model : Type}.
Variable quicksort : forall A : Type, (A -> A -> bool) -> list A -> list A.
Hypothesis quicksort_sorts : sorts quicksort.

(** [sort_values] on a column whose values can be compared: a
    rearrangement of the rows, in the order of the keys. *)
Lemma sort_values_spec (c : string) (ascending : bool) (df : pd.DataFrame) :
  pd.comparable
    (map (fun r => pd.at_ (pd.columns df) r c)
       (List.filter (fun r => negb (pd.isna (pd.at_ (pd.columns df) r c))) (pd.rows df)))
  = true ->
  exists sorted_rows,
    pd.sort_values quicksort c ascending df
    = Ok {| pd.columns := pd.columns df; pd.rows := sorted_rows |}
    /\ sorted_rows ≡ₚ pd.rows df
    /\ StronglySorted
         (fun r1 r2 => key_order ascending (pd.at_ (pd.columns df) r1 c)
                         (pd.at_ (pd.columns df) r2 c)) sorted_rows.
Proof.
  intros Hcmp. unfold pd.sort_values. cbv zeta. rewrite Hcmp.
  set (key := fun r => pd.at_ (pd.columns df) r c).
  set (present := List.filter (fun r => negb (pd.isna (pd.at_ (pd.columns df) r c)))
                    (pd.rows df)) in *.
  set (missing := List.filter (fun r => pd.isna (pd.at_ (pd.columns df) r c)) (pd.rows df)).
  set (cmp := fun r1 r2 : list cell =>
                if ascending
                then pd.le (pd.at_ (pd.columns df) r1 c) (pd.at_ (pd.columns df) r2 c)
                else pd.le (pd.at_ (pd.columns df) r2 c) (pd.at_ (pd.columns df) r1 c)).
  destruct (quicksort_sorts _ cmp present) as [Hperm Hsorted].
  eexists. split; [reflexivity|]. split.
  { rewrite Hperm. apply (filter_partition (fun r => pd.isna (pd.at_ (pd.columns df) r c))). }
  assert (Hkey : forall r, r ∈ present -> key r ∈ map key present).
  { intros r Hr. apply list_elem_of_fmap. eauto. }
  assert (Hna : forall r, r ∈ present -> pd.isna (key r) = false).
  { intros r [_ Hr]%elem_of_filter_bool. by apply negb_true_iff. }
  apply StronglySorted_app_2.
  - intros r1 r2 _ [_ H2]%elem_of_filter_bool.
    destruct (pd.at_ (pd.columns df) r2 c); try discriminate. apply key_order_missing.
  - apply (StronglySorted_weaken (fun r1 r2 => cmp r1 r2 = true) _ (fun r => r ∈ present)).
    + intros r1 r2 H1 H2 H. apply key_order_present; [apply (Hna _ H1) | apply (Hna _ H2) | exact H].
    + apply Forall_forall. intros r. by rewrite Hperm.
    + apply Hsorted.
      * intros r1 r2 H1 H2. unfold cmp.
        destruct ascending;
          (apply (le_total_comparable (map key present));
           [exact Hcmp | first [exact (Hkey _ H1) | exact (Hkey _ H2)]..]).
      * intros r1 r2 r3 _ _ _. unfold cmp.
        destruct ascending; eauto using le_trans_comparable.
  - apply StronglySorted_all. intros r1 r2 _ [_ H2]%elem_of_filter_bool.
    destruct (pd.at_ (pd.columns df) r2 c); try discriminate. apply key_order_missing.
Qed.

Local Abbreviation top := (get_top_200_list Model quicksort).

(** X20. For a loaded, well-formed dataset and a sort column whose values
    can be compared, the method returns the records of the first 200 rows
    of a rearrangement of the whole dataset that is sorted by the column in
    the direction asked for, the missing values last: at most 200 records,
    each a new record that holds the values of its row, in the order of
    their keys.  The object is left as it was.  Nothing is said of the order
    of rows with equal keys, which the default sort of [sort_values] does
    not promise. *)
Theorem top_200_sorted_prefix (sort_by : string) (ascending : bool) (df : pd.DataFrame)
    (self : analyser Model) :
  cleaned_dataset self = Some df ->
  well_formed df ->
  sort_by ∈ pd.columns df ->
  pd.comparable
    (map (fun r => pd.at_ (pd.columns df) r sort_by)
       (List.filter (fun r => negb (pd.isna (pd.at_ (pd.columns df) r sort_by)))
          (pd.rows df))) = true ->
  exists recs sorted_rows,
    top sort_by ascending self = (Ok recs, self)
    /\ (length recs <= 200)%nat
    /\ sorted_rows ≡ₚ pd.rows df
    /\ StronglySorted
         (fun r1 r2 => key_order ascending (pd.at_ (pd.columns df) r1 sort_by)
                         (pd.at_ (pd.columns df) r2 sort_by)) sorted_rows
    /\ recs = map (pd.row_dict (pd.columns df)) (take 200 sorted_rows)
    /\ (forall r c, r ∈ sorted_rows -> c ∈ pd.columns df ->
          pd.row_dict (pd.columns df) r !! c = Some (pd.at_ (pd.columns df) r c))
    /\ StronglySorted (key_order ascending) (map (field sort_by) recs).
Proof.
  intros Hdf [Hnd Hlen] Hcol Hcmp.
  destruct (sort_values_spec sort_by ascending df Hcmp) as (sorted_rows & Hsv & Hperm & Hs).
  exists (map (pd.row_dict (pd.columns df)) (take 200 sorted_rows)), sorted_rows.
  assert (Hrec : forall r c, r ∈ sorted_rows -> c ∈ pd.columns df ->
            pd.row_dict (pd.columns df) r !! c = Some (pd.at_ (pd.columns df) r c)).
  { intros r c Hr Hc. apply row_dict_lookup; auto.
    rewrite Forall_forall in Hlen. apply Hlen. by rewrite <- Hperm. }
  split.
  { unfold get_top_200_list.
    rewrite (bind_ok _ _ self df self) by (unfold loaded; by rewrite Hdf).
    rewrite (bool_decide_eq_true_2 _ Hcol). cbn [negb].
    erewrite bind_ok by (unfold lift; rewrite Hsv; reflexivity).
    reflexivity. }
  split. { rewrite length_map, length_take. lia. }
  split; [done|]. split; [done|]. split; [done|]. split; [done|].
  rewrite map_map.
  apply (StronglySorted_fmap _
           (fun r1 r2 => r1 ∈ sorted_rows /\ r2 ∈ sorted_rows
                         /\ key_order ascending (pd.at_ (pd.columns df) r1 sort_by)
                              (pd.at_ (pd.columns df) r2 sort_by))).
  - intros r1 r2 (H1 & H2 & H). unfold field. by rewrite !Hrec.
  - apply (StronglySorted_weaken
             (fun r1 r2 => key_order ascending (pd.at_ (pd.columns df) r1 sort_by)
                             (pd.at_ (pd.columns df) r2 sort_by))
             _ (fun r => r ∈ sorted_rows)).
    + auto.
    + apply Forall_forall. intros r Hr. by apply (subseteq_take 200).
    + apply (StronglySorted_app_1_l _ _ (drop 200 sorted_rows)). by rewrite take_drop.
Qed.

End Top.

Lemma script_table_well_formed : well_formed (clean Script.table).
Proof. split; apply (bool_decide_unpack _); vm_compute; exact I. Qed.

Lemma top_200_sorted_prefix_witness :
  exists recs,
    get_top_200_list Script.Model Script.stable_sort "Rating Average" false
      (Script.loaded_analyser [])
    = (Ok recs, Script.loaded_analyser [])
    /\ (length recs <= 200)%nat
    /\ StronglySorted (key_order false) (map (field "Rating Average") recs).
Proof.
  destruct (top_200_sorted_prefix Script.stable_sort stable_sort_sorts "Rating Average" false
              (clean Script.table) (Script.loaded_analyser []))
    as (recs & sorted_rows & H & Hlen & _ & _ & _ & _ & Hs).
  - reflexivity.
  - exact script_table_well_formed.
  - apply (bool_decide_unpack _). vm_compute. exact I.
  - reflexivity.
  - exists recs. split; [exact H|]. split; [exact Hlen | exact Hs].
Defined.

(** With a stable sort the two games rated 8 come out in the order of the
    dataset, and the game without a rating comes last. *)
Example top_200_with_a_stable_sort :
  exists recs,
    get_top_200_list Script.Model Script.stable_sort "Rating Average" false
      (Script.loaded_analyser [])
    = (Ok recs, Script.loaded_analyser [])
    /\ map (field "Name") recs = [Str "G1"; Str "G2"; Str "G4"].
Proof.
  exists (map (pd.row_dict (pd.columns Script.table))
            [ [Str "G1"; Num (inject_Z 2017); Str "Dice Rolling,Trading,Area Control"; Num (8 # 1)];
              [Str "G2"; Num (inject_Z 2015); Str "Drafting,Worker Placement"; Num (8 # 1)];
              [Str "G4"; Num (inject_Z 1995); Str "Auction and Bidding"; NaN] ]).
  split; [|vm_compute; reflexivity].
  unfold get_top_200_list.
  erewrite bind_ok by reflexivity.
  change (negb (bool_decide ("Rating Average" ∈ pd.columns (clean Script.table))))
    with false. cbv iota.
  erewrite bind_ok
    by (unfold lift; f_equal;
        exact (eq_refl : pd.sort_values Script.stable_sort "Rating Average" false
                           (clean Script.table)
                         = Ok {| pd.columns := pd.columns Script.table;
                                 pd.rows := [ [Str "G1"; Num (inject_Z 2017); Str "Dice Rolling,Trading,Area Control"; Num (8 # 1)];
                                   [Str "G2"; Num (inject_Z 2015); Str "Drafting,Worker Placement"; Num (8 # 1)];
                                   [Str "G4"; Num (inject_Z 1995); Str "Auction and Bidding"; NaN] ] |})).
  reflexivity.
Qed.

(** A column that mixes numbers and strings cannot be sorted. *)
Example top_200_mixed_column :
  exists msg,
    get_top_200_list Script.Model Script.stable_sort "Year Published" false
      (set_cleaned_dataset Script.Model
         {| pd.columns := ["Name"; "Year Published"];
            pd.rows := [[Str "G1"; Num (inject_Z 2017)]; [Str "G2"; Str "unknown"]] |}
         (Script.fresh "dataset.csv"))
    = (Err (TypeError msg),
       set_cleaned_dataset Script.Model
         {| pd.columns := ["Name"; "Year Published"];
            pd.rows := [[Str "G1"; Num (inject_Z 2017)]; [Str "G2"; Str "unknown"]] |}
         (Script.fresh "dataset.csv")).
Proof.
  exists "'<' not supported between instances of 'str' and 'float'".
  vm_compute. reflexivity.
Qed.

(** * Further properties *)

(** ** Splitting, slicing, signs *)

(** X3. The number of mechanics that the single-game method declares,
    [mechanics.count(",") + 1], is the length of the list that the batch
    splits, [mechanics.split(",")]; and no entry of that list holds a
    comma. *)
Theorem split_length_count (sep : ascii) (s : string) :
  Z.of_nat (length (Py.split sep s)) = Py.count sep s + 1
  /\ Forall (fun entry => Py.count sep entry = 0) (Py.split sep s).
Proof.
  induction s as [|c s [IHl IHf]]; [by repeat constructor|].
  cbn [Py.split Py.count]. destruct (Ascii.eqb c sep) eqn:E.
  - split; [cbn [length]; lia | by constructor].
  - pose proof (split_nonempty sep s) as Hne.
    destruct (Py.split sep s) as [|h t]; [done|].
    split; [cbn [length] in *; lia|].
    apply Forall_cons in IHf as [Hh Ht]. constructor; [|done].
    by rewrite count_cons_ne.
Qed.

(** X4. Splitting loses nothing: joining the entries with the separator gives
    the string back. *)
Theorem split_join (sep : ascii) (s : string) :
  join (String sep "") (Py.split sep s) = s.
Proof.
  induction s as [|c s IH]; [done|].
  pose proof (split_nonempty sep s) as Hne.
  cbn [Py.split]. destruct (Ascii.eqb_spec c sep) as [->|_].
  - destruct (Py.split sep s) as [|h t]; [done|].
    change (join (String sep "") ("" :: h :: t))
      with (String sep (join (String sep "") (h :: t))).
    by rewrite IH.
  - destruct (Py.split sep s) as [|h t]; [done|].
    destruct t as [|h' t].
    + simpl in *. by rewrite IH.
    + change (join (String sep "") (String c h :: h' :: t))
        with (String c (join (String sep "") (h :: h' :: t))).
      by rewrite IH.
Qed.

(** X5. The slice [l[:k]] never raises: for every integer it is a prefix of
    the list, of length [min(k, len)] for [k >= 0] and [max(0, len + k)]
    for [k < 0]. *)
Theorem slice_to_prefix {A} (k : Z) (l : list A) :
  Py.slice_to k l `prefix_of` l
  /\ Z.of_nat (length (Py.slice_to k l))
     = if k <? 0 then Z.max 0 (Z.of_nat (length l) + k) else Z.min k (Z.of_nat (length l)).
Proof.
  unfold Py.slice_to. destruct (Z.ltb_spec k 0).
  - split; [apply prefix_take|]. rewrite length_take. lia.
  - split; [apply prefix_take|]. rewrite length_take. lia.
Qed.

Lemma strip_around_block l b r :
  all_chars Py.isspace l = true -> all_chars Py.isspace r = true ->
  all_chars (fun c => negb (Py.isspace c)) b = true -> b <> "" ->
  Py.strip (l +:+ b +:+ r) = b.
Proof.
  intros Hl Hr Hb Hne. unfold Py.strip.
  assert (Hk : Py.rstrip b = b) by (by apply rstrip_not_space).
  rewrite <- string_app_assoc.
  rewrite rstrip_app_spaces by done.
  rewrite rstrip_app_keep by done.
  rewrite lstrip_app_spaces by done.
  destruct b as [|c b']; [done|].
  simpl in Hb. apply andb_prop in Hb as [Hc _].
  apply lstrip_not_space. by apply negb_true_iff.
Qed.

(** X6. A sign in front of the digits is read: a minus negates the number
    and a plus leaves it, for a block of at most 4300 digits; so the count
    that the model's answer holds can be negative. *)
Theorem parse_count_signed (l d r : string) :
  all_chars Py.isspace l = true -> all_chars Py.isspace r = true ->
  all_chars Py.isdecimal d = true -> d <> "" ->
  Z.of_nat (String.length d) <= 4300 ->
  parse_count (l +:+ String "-" d +:+ r) = Ok (- decimal 0 d)
  /\ parse_count (l +:+ String "+" d +:+ r) = Ok (decimal 0 d).
Proof.
  intros Hl Hr Hd Hne Hlen.
  assert (Hblock : forall sgn, Py.isspace sgn = false ->
            Py.strip (l +:+ String sgn d +:+ r) = String sgn d).
  { intros sgn Hs. apply strip_around_block; [done..| |done].
    simpl. rewrite Hs. simpl. by apply all_digits_not_space. }
  assert (Hint : forall sgn negative, Py.isspace sgn = false ->
            Py.sign (String sgn d) = (negative, d) ->
            Py.int (String sgn d) = Ok (if negative then - decimal 0 d else decimal 0 d)).
  { intros sgn negative Hs Hsg. rewrite (int_digits negative) by done.
    unfold Py.int_max_str_digits. by rewrite (proj2 (Z.ltb_ge _ _) Hlen). }
  unfold parse_count. rewrite !Hblock by reflexivity.
  split; [exact (Hint "-"%char true eq_refl eq_refl) | exact (Hint "+"%char false eq_refl eq_refl)].
Qed.

Lemma parse_count_signed_witness :
  parse_count (" " +:+ String "-" "1" +:+ " ") = Ok (-1).
Proof.
  apply (proj1 (parse_count_signed " " "1" " " eq_refl eq_refl eq_refl
                  (fun H : "1" = "" => eq_ind "1" (fun s => match s with "" => False | _ => True end) I "" H)
                  (fun H : (Z.of_nat (String.length "1") ?= 4300) = Gt =>
                     eq_ind Lt (fun c => match c with Gt => False | _ => True end) I Gt H))).
Defined.

(** ** The tally *)

Lemma count_of_incr (x k : string) (c : Counter.t) :
  count_of x (Counter.incr k c)
  = (count_of x c + if bool_decide (x = k) then 1 else 0)%nat.
Proof.
  induction c as [|[k' n] c IH]; simpl.
  - repeat case_bool_decide; lia.
  - repeat (case_bool_decide; simpl); subst; try congruence; try lia.
    all: rewrite IH; repeat case_bool_decide; try congruence; lia.
Qed.

Lemma count_of_update (x : string) (xs : list string) : forall c : Counter.t,
  count_of x (Counter.update xs c) = (count_of x c + occurrences x xs)%nat.
Proof.
  unfold Counter.update. induction xs as [|y xs IH]; intros c; simpl; [lia|].
  rewrite IH, count_of_incr. lia.
Qed.

Lemma keys_incr_list (k : string) (c : Counter.t) :
  Counter.keys (Counter.incr k c)
  = if bool_decide (k ∈ Counter.keys c) then Counter.keys c else Counter.keys c ++ [k].
Proof.
  induction c as [|[k' n] c IH]; [done|].
  cbn [Counter.incr].
  change (Counter.keys ((k', n) :: c)) with (k' :: Counter.keys c).
  destruct (decide (k = k')) as [->|Hne].
  - rewrite !bool_decide_eq_true_2 by (done || constructor). done.
  - rewrite (bool_decide_eq_false_2 (k = k')) by done.
    change (Counter.keys ((k', n) :: Counter.incr k c))
      with (k' :: Counter.keys (Counter.incr k c)).
    rewrite IH. destruct (decide (k ∈ Counter.keys c)) as [Hin|Hin].
    + rewrite !bool_decide_eq_true_2 by (done || by constructor). done.
    + rewrite !bool_decide_eq_false_2; [done| |done].
      intros [?|?]%elem_of_cons; congruence.
Qed.

Lemma keys_update_NoDup (xs : list string) : forall c : Counter.t,
  NoDup (Counter.keys c) -> NoDup (Counter.keys (Counter.update xs c)).
Proof.
  unfold Counter.update. induction xs as [|y xs IH]; intros c Hc; simpl; [done|].
  apply IH. rewrite keys_incr_list. case_bool_decide as Hin; [done|].
  apply NoDup_app. split; [done|]. split.
  - intros z Hz ->%list_elem_of_singleton. done.
  - apply NoDup_singleton.
Qed.

Lemma count_of_elem (k : string) (n : nat) (c : Counter.t) :
  NoDup (Counter.keys c) -> (k, n) ∈ c -> count_of k c = n.
Proof.
  induction c as [|[k' n'] c IH]; intros Hnd Hin; [by apply elem_of_nil in Hin|].
  change (Counter.keys ((k', n') :: c)) with (k' :: Counter.keys c) in Hnd.
  apply NoDup_cons in Hnd as [Hk' Hnd]. simpl.
  apply elem_of_cons in Hin as [[= -> ->]|Hin].
  - by rewrite bool_decide_eq_true_2.
  - rewrite bool_decide_eq_false_2; [by apply IH|].
    intros ->. apply Hk'. unfold Counter.keys. apply list_elem_of_fmap.
    by exists (k', n).
Qed.

Lemma occurrences_pos (x : string) (xs : list string) :
  x ∈ xs <-> (1 <= occurrences x xs)%nat.
Proof.
  induction xs as [|y xs IH]; simpl.
  - split; [by intros ?%elem_of_nil | lia].
  - rewrite elem_of_cons, IH. case_bool_decide; split; intros; try lia; auto.
    destruct H0 as [?|?]; [done | lia].
Qed.

Lemma keys_update_elem (xs : list string) (x : string) :
  x ∈ Counter.keys (Counter.update xs []) <-> x ∈ xs.
Proof.
  rewrite <- (elem_of_list_to_set (C := gset string)), keys_update.
  change (Counter.keys []) with (@nil string).
  rewrite list_to_set_nil, union_empty_l_L. apply elem_of_list_to_set.
Qed.

Lemma counter_elem (xs : list string) (x : string) (n : nat) :
  (x, n) ∈ Counter.update xs [] -> n = occurrences x xs /\ (1 <= n)%nat /\ x ∈ xs.
Proof.
  intros Hin.
  assert (Hnd : NoDup (Counter.keys (Counter.update xs [])))
    by (apply keys_update_NoDup; constructor).
  assert (Hx : x ∈ xs).
  { apply keys_update_elem. unfold Counter.keys. apply list_elem_of_fmap.
    by exists (x, n). }
  rewrite <- (count_of_elem x n _ Hnd Hin), count_of_update. simpl.
  split; [done|]. split; [by apply occurrences_pos | done].
Qed.

(** X7. The Counter counts: after [update] from an empty Counter its keys are
    distinct, they are the elements that were counted, and the count of
    each is the number of times it occurred. *)
Theorem counter_counts_occurrences (xs : list string) :
  NoDup (Counter.keys (Counter.update xs []))
  /\ forall x : string,
       count_of x (Counter.update xs []) = occurrences x xs
       /\ (x ∈ Counter.keys (Counter.update xs []) <-> x ∈ xs)
       /\ forall n : nat, (x, n) ∈ Counter.update xs [] ->
                          n = occurrences x xs /\ (1 <= n)%nat.
Proof.
  split; [apply keys_update_NoDup; constructor|].
  intros x. split; [by rewrite count_of_update|]. split; [apply keys_update_elem|].
  intros n Hin. destruct (counter_elem xs x n Hin) as (? & ? & _). by split.
Qed.

Lemma StronglySorted_reverse {A} (R : A -> A -> Prop) (l : list A) :
  StronglySorted R l -> StronglySorted (fun x y => R y x) (reverse l).
Proof.
  induction 1 as [|x l Hs IH Hx]; [constructor|].
  rewrite reverse_cons. apply StronglySorted_app_2.
  - intros y z Hy ->%list_elem_of_singleton.
    rewrite Forall_forall in Hx. apply Hx. by apply elem_of_reverse.
  - done.
  - repeat constructor.
Qed.

Lemma StronglySorted_take' {A} (R : A -> A -> Prop) (n : nat) (l : list A) :
  StronglySorted R l -> StronglySorted R (take n l).
Proof.
  intros H. apply (StronglySorted_app_1_l _ _ (drop n l)). by rewrite take_drop.
Qed.

(** [most_common()] rearranges the items of the Counter by count, largest
    first. *)
Lemma most_common_all_sorted (c : Counter.t) :
  Counter.most_common_all c ≡ₚ c
  /\ StronglySorted (fun a b : string * nat => (b.2 <= a.2)%nat) (Counter.most_common_all c).
Proof.
  unfold Counter.most_common_all. split; [apply sorted_perm|].
  apply (StronglySorted_weaken
           (fun a b : string * nat => (b.2 <=? a.2)%nat = true) _ (fun _ => True)).
  - intros a b _ _ H. by apply Nat.leb_le.
  - by apply Forall_forall.
  - apply (sorted_strongly _ (fun _ => True)).
    + intros a b _ _. rewrite !Nat.leb_le. lia.
    + intros a b d _ _ _. rewrite !Nat.leb_le. lia.
    + by apply Forall_forall.
Qed.

Lemma assigned_trimmed (o : outcome) (x : string) :
  x ∈ assigned_mechanics o -> Py.strip x = x.
Proof.
  destruct o as [|m|m k]; simpl; try (by intros ?%elem_of_nil).
  intros (y & -> & _)%list_elem_of_fmap. apply strip_idem.
Qed.

Section Rankings.

Context {Model : Type}.
Variable generate_content : Model -> string -> result string * Model.
Variable format_number : Q -> string.

Local Abbreviation batch :=
  (calculate_total_applicable_mechanics Model generate_content format_number).
Local Abbreviation tallied games self :=
  (concat (map assigned_mechanics (outcomes Model generate_content format_number games
                                     (model self)))).

(** X8. The two rankings that the batch returns have at most ten entries
    each; the top ten is in the order of decreasing counts and the least
    ten in the order of increasing counts.  (The batch returns when the
    dataset is loaded, the list is not empty, every record has a name and
    the total of the counts is below [2^1023] in absolute value.) *)
Theorem rankings_sorted_and_bounded (games : list dict) (self : analyser Model) :
  is_Some (cleaned_dataset self) -> games <> [] -> Forall has_name games ->
  Z.abs (sum_Z (map counted (outcomes Model generate_content format_number games
                               (model self)))) < 2 ^ 1023 ->
  exists s self',
    batch games self = (Ok s, self')
    /\ (length (top_ten_mechanics s) <= 10)%nat
    /\ (length (least_ten_mechanics s) <= 10)%nat
    /\ StronglySorted (fun a b : string * nat => (b.2 <= a.2)%nat) (top_ten_mechanics s)
    /\ StronglySorted (fun a b : string * nat => (a.2 <= b.2)%nat) (least_ten_mechanics s).
Proof.
  intros Hdf Hne Hn Hsmall.
  destruct (final_division games _ Hne Hn Hsmall) as [average Hdiv].
  destruct (calculate_spec generate_content format_number games self average Hdf Hn Hdiv)
    as (self' & rest & Hc & _).
  eexists _, self'. split; [exact Hc|].
  cbn [top_ten_mechanics least_ten_mechanics]. unfold Counter.most_common.
  set (c := Counter.update _ []).
  destruct (most_common_all_sorted c) as [_ Hs].
  split; [rewrite length_take; lia|]. split; [rewrite length_take; lia|].
  split; [by apply StronglySorted_take'|].
  apply StronglySorted_take'. by apply (StronglySorted_reverse _ _ Hs).
Qed.

(** X9. Every entry of the two rankings is a trimmed mechanic name with
    the number of times it was tallied, at least once; and no ranked name
    is in the never-assigned set.  (The batch returns when the dataset is
    loaded, the list is not empty, every record has a name and the total of
    the counts is below [2^1023] in absolute value.) *)
Theorem ranked_entries_are_tallied (games : list dict) (self : analyser Model) :
  is_Some (cleaned_dataset self) -> games <> [] -> Forall has_name games ->
  Z.abs (sum_Z (map counted (outcomes Model generate_content format_number games
                               (model self)))) < 2 ^ 1023 ->
  exists s self',
    batch games self = (Ok s, self')
    /\ forall (name : string) (n : nat),
         (name, n) ∈ top_ten_mechanics s ++ least_ten_mechanics s ->
         n = occurrences name (tallied games self)
         /\ (1 <= n)%nat
         /\ Py.strip name = name
         /\ name ∉ unassigned_mechanics s.
Proof.
  intros Hdf Hne Hn Hsmall.
  destruct (final_division games _ Hne Hn Hsmall) as [average Hdiv].
  destruct (calculate_spec generate_content format_number games self average Hdf Hn Hdiv)
    as (self' & rest & Hc & _).
  eexists _, self'. split; [exact Hc|].
  cbn [top_ten_mechanics least_ten_mechanics unassigned_mechanics].
  unfold Counter.most_common.
  set (xs := concat (map assigned_mechanics _)).
  destruct (most_common_all_sorted (Counter.update xs [])) as [Hperm _].
  intros name n Hin.
  assert (Hc' : (name, n) ∈ Counter.update xs []).
  { rewrite <- Hperm. apply elem_of_app in Hin as [Hin|Hin].
    - by apply (subseteq_take 10).
    - apply elem_of_reverse. by apply (subseteq_take 10). }
  destruct (counter_elem xs name n Hc') as (-> & Hpos & Hx).
  split; [done|]. split; [done|]. split.
  - apply elem_of_concat in Hx as (l & Hx & Hl).
    apply list_elem_of_fmap in Hl as (o & -> & _). by apply (assigned_trimmed o).
  - rewrite elem_of_difference, !elem_of_list_to_set. tauto.
Qed.

End Rankings.

Lemma rankings_sorted_and_bounded_witness :
  exists s self',
    Script.calculate [Ok "2"; Ok "x"] [Script.game "G1" "A, B"; Script.game "G2" "C"]
    = (Ok s, self')
    /\ (length (top_ten_mechanics s) <= 10)%nat.
Proof.
  destruct (rankings_sorted_and_bounded Script.generate_content Script.format_number
              [Script.game "G1" "A, B"; Script.game "G2" "C"]
              (Script.loaded_analyser [Ok "2"; Ok "x"]))
    as (s & self' & H & Hl & _).
  - by eexists.
  - discriminate.
  - exact script_games_named.
  - vm_compute. reflexivity.
  - exists s, self'. split; [exact H | exact Hl].
Defined.

Lemma ranked_entries_are_tallied_witness :
  exists s self',
    Script.calculate [Ok "2"; Ok "x"] [Script.game "G1" "A, B"; Script.game "G2" "C"]
    = (Ok s, self')
    /\ forall (name : string) (n : nat),
         (name, n) ∈ top_ten_mechanics s ++ least_ten_mechanics s ->
         (1 <= n)%nat /\ Py.strip name = name.
Proof.
  destruct (ranked_entries_are_tallied Script.generate_content Script.format_number
              [Script.game "G1" "A, B"; Script.game "G2" "C"]
              (Script.loaded_analyser [Ok "2"; Ok "x"]))
    as (s & self' & H & He).
  - by eexists.
  - discriminate.
  - exact script_games_named.
  - vm_compute. reflexivity.
  - exists s, self'. split; [exact H|]. intros name n Hin.
    destruct (He name n Hin) as (_ & ? & ? & _). by split.
Defined.

(** ** One game of the batch *)

Section Games.

Context {Model : Type}.
Variable generate_content : Model -> string -> result string * Model.
Variable format_number : Q -> string.

Local Abbreviation turn :=
  (fun game => try_except (process_game Model generate_content format_number game)
                 (report Model game)).
Local Abbreviation batch :=
  (calculate_total_applicable_mechanics Model generate_content format_number).

(** X10. A record with a name whose mechanics are absent or not a string is
    skipped without asking the model: one error line with the game's name
    is written, and the total, the tally, the set of all mechanics and the
    model are as before. *)
Theorem unlisted_record_is_skipped (game : dict) (name : cell) (f : frame Model) :
  game !! "Name" = Some name -> unlisted game ->
  exists e,
    turn game f
    = (Ok tt, with_this Model (write Model (ErrorProcessing name e) (this f)) f)
    /\ (e = KeyError "Mechanics" \/ exists msg, e = AttributeError msg).
Proof.
  intros Hname Hun. unfold unlisted in Hun.
  unfold try_except, process_game, report, bind, lift, on_self, print, modify,
    dict_getitem. rewrite Hname.
  destruct (game !! "Mechanics") as [[| q | mechanics]|]; try done; simpl;
    eexists; (split; [reflexivity|]); eauto.
Qed.

(** X11. On records that all have a name the batch writes one line per
    game, in the order of the games, before anything else: the count for a
    game that was counted, the error with the game's name for any other;
    the model is left in the state after the last call and the dataset is
    untouched.  The summary follows these lines when the method returns, as
    it does when the total of the counts is below [2^1023] in absolute
    value; when the final division overflows nothing follows them and
    [OverflowError] leaves the method. *)
Theorem one_line_per_game (games : list dict) (self : analyser Model) :
  is_Some (cleaned_dataset self) -> games <> [] -> Forall has_name games ->
  let os := outcomes Model generate_content format_number games (model self) in
  exists r self' ls tail,
    batch games self = (r, self')
    /\ stdout self' = stdout self ++ ls ++ tail
    /\ length ls = length games
    /\ Forall2 (fun go l => reported go.1 go.2 l) (zip games os) ls
    /\ model self' = model_after Model generate_content format_number games (model self)
    /\ cleaned_dataset self' = cleaned_dataset self
    /\ match r with
       | Ok _ => exists rest, tail = Blank :: rest
       | Err e =>
           tail = [] /\ e = OverflowError "integer division result too large for a float"
       end
    /\ (Z.abs (sum_Z (map counted os)) < 2 ^ 1023 -> exists s, r = Ok s).
Proof.
  intros Hdf Hne Hn os.
  assert (Hlen : forall gs m, length (outcomes Model generate_content format_number gs m)
                              = length gs).
  { induction gs as [|g gs IH]; intros m; simpl; [done|]. by rewrite IH. }
  assert (Hlines : forall ls : list line,
             Forall2 (fun go l => reported go.1 go.2 l) (zip games os) ls ->
             length ls = length games).
  { intros ls Hr. apply Forall2_length in Hr. rewrite <- Hr, length_zip.
    unfold os. rewrite Hlen. lia. }
  destruct (Py.truediv (sum_Z (map counted os))
              (sum_Z (map (fun game : dict => Z.of_nat (size game)) games)))
    as [average|e] eqn:Hdiv.
  - destruct (calculate_spec generate_content format_number games self average Hdf Hn Hdiv)
      as (self' & rest & Hc & Hm & Hd & ls & Ho & Hr).
    eexists _, self', ls, _. split; [exact Hc|]. split; [exact Ho|].
    split; [by apply Hlines|]. split; [done|]. split; [done|]. split; [done|].
    split; [by eexists | by eexists].
  - destruct (calculate_raises generate_content format_number games self e Hdf Hn Hdiv)
      as (self' & ls & Hc & Hm & Hd & Ho & Hr).
    exists (Err e), self', ls, []. split; [exact Hc|]. rewrite app_nil_r.
    split; [done|]. split; [by apply Hlines|]. split; [done|]. split; [done|].
    split; [done|]. split.
    + split; [done|]. destruct (truediv_raises _ _ _ Hdiv) as [[Hz _]|[_ He]]; [|done].
      pose proof (total_length_pos games Hne Hn). lia.
    + intros Hsmall. destruct (final_division games _ Hne Hn Hsmall) as [average Ha].
      fold os in Ha. congruence.
Qed.

End Games.

Lemma unlisted_record_is_skipped_witness :
  exists e,
    try_except
      (process_game Script.Model Script.generate_content Script.format_number
         (<["Name" := Str "G"]> ∅))
      (report Script.Model (<["Name" := Str "G"]> ∅))
      (enter Script.Model (Script.loaded_analyser [Ok "1"]))
    = (Ok tt,
       with_this Script.Model
         (write Script.Model (ErrorProcessing (Str "G") e) (Script.loaded_analyser [Ok "1"]))
         (enter Script.Model (Script.loaded_analyser [Ok "1"]))).
Proof.
  destruct (unlisted_record_is_skipped Script.generate_content Script.format_number
              (<["Name" := Str "G"]> ∅) (Str "G")
              (enter Script.Model (Script.loaded_analyser [Ok "1"])))
    as (e & H & _).
  - reflexivity.
  - exact I.
  - exists e. exact H.
Defined.

Lemma one_line_per_game_witness :
  exists s self' ls rest,
    Script.calculate [Ok "2"; Ok "x"] [Script.game "G1" "A, B"; Script.game "G2" "C"]
    = (Ok s, self')
    /\ stdout self' = ls ++ Blank :: rest
    /\ length ls = 2%nat.
Proof.
  destruct (one_line_per_game Script.generate_content Script.format_number
              [Script.game "G1" "A, B"; Script.game "G2" "C"]
              (Script.loaded_analyser [Ok "2"; Ok "x"]))
    as (r & self' & ls & tail & H & Ho & Hl & _ & _ & _ & Htail & Hreturns).
  - by eexists.
  - discriminate.
  - exact script_games_named.
  - destruct Hreturns as [s ->]; [vm_compute; reflexivity|].
    destruct Htail as [rest ->].
    exists s, self', ls, rest. split; [exact H|]. split; [exact Ho | exact Hl].
Defined.

(** ** The guards, and what fails in the single-game method *)

Section Guards.

Context {Model : Type}.
Variable generate_content : Model -> string -> result string * Model.
Variable format_number : Q -> string.
Variable quicksort : forall A : Type, (A -> A -> bool) -> list A -> list A.

Local Abbreviation verify := (verify_mechanics_with_genai Model generate_content).
Local Abbreviation top := (get_top_200_list Model quicksort).
Local Abbreviation batch :=
  (calculate_total_applicable_mechanics Model generate_content format_number).

(** X1. Before the dataset is loaded the three methods that need it raise
    [AttributeError], whatever their arguments; the model is not asked and
    nothing is written. *)
Theorem not_loaded_guards (self : analyser Model) (game_name sort_by : string)
    (ascending : bool) (games : list dict) :
  cleaned_dataset self = None ->
  verify game_name self = (Err not_loaded, self)
  /\ top sort_by ascending self = (Err not_loaded, self)
  /\ batch games self = (Err not_loaded, self).
Proof.
  intros H.
  assert (Hl : loaded Model self = (Err not_loaded, self))
    by (unfold loaded; by rewrite H).
  unfold verify_mechanics_with_genai, get_top_200_list,
    calculate_total_applicable_mechanics.
  by rewrite !(bind_err _ _ _ _ _ Hl).
Qed.

(** X2. Sorting by a name that is not a column raises [ValueError] naming the
    column; the object is unchanged. *)
Theorem top_200_unknown_column (sort_by : string) (ascending : bool)
    (df : pd.DataFrame) (self : analyser Model) :
  cleaned_dataset self = Some df -> sort_by ∉ pd.columns df ->
  top sort_by ascending self
  = (Err (ValueError ("Column '" +:+ sort_by +:+ "' not found in the dataset.")), self).
Proof.
  intros Hdf Hc. unfold get_top_200_list.
  rewrite (bind_ok _ _ self df self) by (unfold loaded; by rewrite Hdf).
  by rewrite bool_decide_eq_false_2.
Qed.

(** X12. The single-game method catches nothing: an error of the model, or an
    answer that is not an integer, leaves the method as the error it is;
    the model has been asked (its state has moved) and nothing is
    written. *)
Theorem verify_propagates_errors (game_name : string) (df : pd.DataFrame)
    (self : analyser Model) (r : list cell) (rest : list (list cell))
    (mechanics : string) (answer : result string) (m' : Model) :
  cleaned_dataset self = Some df ->
  "Name" ∈ pd.columns df -> "Mechanics" ∈ pd.columns df ->
  List.filter (fun r => pd.eq_str (pd.at_ (pd.columns df) r "Name") game_name) (pd.rows df)
  = r :: rest ->
  pd.at_ (pd.columns df) r "Mechanics" = Str mechanics ->
  generate_content (model self) (make_prompt game_name (prompt_mechanics mechanics))
  = (answer, m') ->
  forall e,
    (answer = Err e \/ exists text, answer = Ok text /\ parse_count text = Err e) ->
    verify game_name self = (Err e, set_model Model m' self).
Proof.
  intros Hdf Hname Hmech Hrows Hcell Hgen e He.
  rewrite (verify_asks generate_content game_name df self r rest mechanics) by done.
  destruct He as [->|(text & -> & Hp)].
  - erewrite bind_err; [done|]. unfold ask. by rewrite Hgen.
  - erewrite bind_ok by (unfold ask; rewrite Hgen; reflexivity).
    erewrite bind_err; [done|]. unfold lift. by rewrite Hp.
Qed.

End Guards.

Lemma not_loaded_guards_witness :
  verify_mechanics_with_genai Script.Model Script.generate_content "G1"
    (Script.fresh "dataset.csv")
  = (Err not_loaded, Script.fresh "dataset.csv").
Proof.
  apply (not_loaded_guards Script.generate_content Script.format_number Script.stable_sort
           (Script.fresh "dataset.csv") "G1" "Name" false []).
  reflexivity.
Defined.

Lemma top_200_unknown_column_witness :
  get_top_200_list Script.Model Script.stable_sort "Rating" false (Script.loaded_analyser [])
  = (Err (ValueError "Column 'Rating' not found in the dataset."), Script.loaded_analyser []).
Proof.
  apply (top_200_unknown_column Script.stable_sort "Rating" false (clean Script.table)
           (Script.loaded_analyser []) eq_refl).
  intros H. repeat (apply elem_of_cons in H as [H|H]; [discriminate|]).
  by apply elem_of_nil in H.
Defined.

Lemma verify_propagates_errors_witness :
  exists msg,
    verify_mechanics_with_genai Script.Model Script.generate_content "G4"
      (Script.loaded_analyser [Ok "three"])
    = (Err (ValueError msg), set_model Script.Model [] (Script.loaded_analyser [Ok "three"])).
Proof.
  eexists.
  apply (verify_propagates_errors Script.generate_content "G4" (clean Script.table)
           (Script.loaded_analyser [Ok "three"])
           [Str "G4"; Num (inject_Z 1995); Str "Auction and Bidding"; NaN] []
           "Auction and Bidding" (Ok "three") [] eq_refl).
  - repeat constructor.
  - repeat constructor.
  - reflexivity.
  - reflexivity.
  - reflexivity.
  - right. exists "three". split; reflexivity.
Defined.

(** ** Loading, again *)

Lemma filter_idem {A} (p : A -> bool) (l : list A) :
  List.filter p (List.filter p l) = List.filter p l.
Proof.
  rewrite filter_filter_andb. apply filter_ext. intros x. by destruct (p x).
Qed.

Lemma clean_idem (df : pd.DataFrame) : clean (clean df) = clean df.
Proof. unfold clean. cbn [pd.columns pd.rows]. by rewrite filter_idem. Qed.

Lemma clean_required_columns (df : pd.DataFrame) :
  has_required_columns df -> has_required_columns (clean df).
Proof. done. Qed.

Section LoadState.

Context {Model : Type}.
Variable read_csv : string -> string -> result pd.DataFrame.

Local Abbreviation load := (load_dataset_clean Model read_csv).

(** X13. Loading never asks the model and writes nothing, however it ends.  When
    it raises, the cleaned dataset of the object is what it was, so an
    analyser that was not loaded is still not loaded; when it returns, the
    table it returns is the cleaned dataset of the object, and every row of
    it has its required fields and a year other than 0. *)
Theorem load_state (sep : string) (self self' : analyser Model)
    (r : result pd.DataFrame) :
  load sep self = (r, self') ->
  model self' = model self
  /\ stdout self' = stdout self
  /\ dataset_path self' = dataset_path self
  /\ match r with
     | Err _ => cleaned_dataset self' = cleaned_dataset self
     | Ok cleaned =>
         cleaned_dataset self' = Some cleaned
         /\ Forall (fun row => kept (pd.columns cleaned) row = true) (pd.rows cleaned)
     end.
Proof.
  intros H.
  destruct (read_csv (dataset_path self) sep) as [df|e] eqn:Hr.
  - assert (Hdec : has_required_columns df \/ ~ has_required_columns df).
    { destruct (forallb (fun col => bool_decide (col ∈ pd.columns df)) required_columns)
        eqn:E.
      - left. by apply required_columns_check.
      - right. intros Hc%required_columns_check. congruence. }
    destruct Hdec as [Hc|Hc].
    + rewrite (load_cleans read_csv sep df self Hr Hc) in H.
      injection H as <- <-. repeat split.
      apply Forall_forall. intros row Hrow.
      by apply elem_of_filter_bool in Hrow as [_ ?].
    + rewrite (load_missing_columns read_csv sep df self Hr Hc) in H.
      by injection H as <- <-.
  - assert (He : (exists msg, e = FileNotFoundError msg)
                 \/ forall msg, e <> FileNotFoundError msg).
    { destruct e; eauto; right; intros ?; discriminate. }
    destruct He as [[msg ->]|He].
    + rewrite (load_file_not_found read_csv sep msg self Hr) in H.
      by injection H as <- <-.
    + rewrite (load_reader_error read_csv sep e self Hr He) in H.
      by injection H as <- <-.
Qed.

(** X14. Cleaning is idempotent: loading a table that is already cleaned
    returns it as it is. *)
Theorem load_of_cleaned_table (sep : string) (df : pd.DataFrame) (self : analyser Model) :
  read_csv (dataset_path self) sep = Ok (clean df) ->
  has_required_columns df ->
  (load sep self).1 = Ok (clean df).
Proof.
  intros Hr Hc.
  rewrite (load_cleans read_csv sep (clean df) self Hr (clean_required_columns df Hc)).
  cbn [fst]. by rewrite clean_idem.
Qed.

End LoadState.

Lemma load_state_witness :
  cleaned_dataset
    (load_dataset_clean Script.Model Script.read_csv ";" (Script.fresh "missing.csv")).2
  = None.
Proof.
  destruct (load_state Script.read_csv ";" (Script.fresh "missing.csv")
              (load_dataset_clean Script.Model Script.read_csv ";"
                 (Script.fresh "missing.csv")).2
              (Err (FileNotFoundError "File not found: missing.csv")))
    as (_ & _ & _ & H).
  - reflexivity.
  - exact H.
Defined.

Lemma load_of_cleaned_table_witness :
  (load_dataset_clean Script.Model (fun _ _ => Ok (clean Script.table)) ";"
     (Script.fresh "dataset.csv")).1
  = Ok (clean Script.table).
Proof.
  apply (load_of_cleaned_table (fun _ _ => Ok (clean Script.table)) ";" Script.table
           (Script.fresh "dataset.csv") eq_refl).
  exact script_table_columns.
Defined.

(** ** Records *)

(** A record of a well-formed table has the columns of the table as its
    keys, one key per column, and under each the value of its row. *)
Lemma row_dict_keys (cols : list string) (r : list cell) :
  NoDup cols -> length r = length cols ->
  dom (pd.row_dict cols r) = list_to_set cols
  /\ size (pd.row_dict cols r) = length cols.
Proof.
  intros Hnd Hlen. unfold pd.row_dict.
  assert (Hfst : (reverse (zip cols r)).*1 = reverse cols)
    by (rewrite fmap_reverse, fst_zip by lia; done).
  split.
  - rewrite dom_list_to_map_L, Hfst. apply set_eq. intros x.
    by rewrite !elem_of_list_to_set, elem_of_reverse.
  - rewrite map_size_list_to_map by (rewrite Hfst; by rewrite reverse_Permutation).
    rewrite length_reverse, length_zip. lia.
Qed.

(** ** From the top 200 to the batch *)

Lemma sum_sizes (n : nat) (recs : list dict) :
  Forall (fun d : dict => size d = n) recs ->
  sum_Z (map (fun game : dict => Z.of_nat (size game)) recs)
  = Z.of_nat (length recs) * Z.of_nat n.
Proof.
  induction 1 as [|d recs Hd _ IH]; [done|].
  cbn [map sum_Z foldr length]. unfold sum_Z in IH. rewrite IH, Hd. lia.
Qed.

(** When no count that the model gives is above [bound] in absolute
    value, the total of a run is at most [bound] times the number of
    games. *)
Lemma total_bound {Model : Type}
    (generate_content : Model -> string -> result string * Model)
    (format_number : Q -> string) (bound : Z) (games : list dict) :
  0 <= bound ->
  (forall m prompt text m' k,
      generate_content m prompt = (Ok text, m') -> parse_count text = Ok k ->
      Z.abs k <= bound) ->
  forall m : Model,
    Z.abs (sum_Z (map counted (outcomes Model generate_content format_number games m)))
    <= Z.of_nat (length games) * bound.
Proof.
  intros Hb Hbound. induction games as [|game games IH]; intros m; [simpl; lia|].
  cbn [outcomes map sum_Z foldr length]. fold (sum_Z (map counted
    (outcomes Model generate_content format_number games
       (play Model generate_content format_number game m).2))).
  specialize (IH (play Model generate_content format_number game m).2).
  assert (Hone : Z.abs (counted (play Model generate_content format_number game m).1)
                 <= bound).
  { unfold play. destruct (game !! "Name"); [|simpl; lia].
    destruct (game !! "Mechanics") as [[| |mechanics]|]; try (simpl; lia).
    destruct (generate_content m _) as [[text|e] m'] eqn:Hg; [|simpl; lia].
    cbn [fst outcome_of]. destruct (parse_count text) as [k|e] eqn:Hk; [|simpl; lia].
    simpl. by apply (Hbound _ _ _ _ _ Hg). }
  lia.
Qed.

Section Pipeline.

Context {Model : Type}.
Variable generate_content : Model -> string -> result string * Model.
Variable format_number : Q -> string.
Variable quicksort : forall A : Type, (A -> A -> bool) -> list A -> list A.
Hypothesis quicksort_sorts : sorts quicksort.

Local Abbreviation top := (get_top_200_list Model quicksort).
Local Abbreviation batch :=
  (calculate_total_applicable_mechanics Model generate_content format_number).

(** The method on a loaded dataset whose sort column can be sorted: the
    records of the first 200 rows of a rearrangement of the dataset. *)
Lemma top_200_rows (sort_by : string) (ascending : bool) (df : pd.DataFrame)
    (self : analyser Model) :
  cleaned_dataset self = Some df ->
  sort_by ∈ pd.columns df ->
  pd.comparable
    (map (fun r => pd.at_ (pd.columns df) r sort_by)
       (List.filter (fun r => negb (pd.isna (pd.at_ (pd.columns df) r sort_by)))
          (pd.rows df))) = true ->
  exists sorted_rows,
    top sort_by ascending self
    = (Ok (map (pd.row_dict (pd.columns df)) (take 200 sorted_rows)), self)
    /\ sorted_rows ≡ₚ pd.rows df.
Proof.
  intros Hdf Hcol Hcmp.
  destruct (sort_values_spec quicksort quicksort_sorts sort_by ascending df Hcmp)
    as (sorted_rows & Hsv & Hperm & _).
  exists sorted_rows. split; [|done]. unfold get_top_200_list.
  rewrite (bind_ok _ _ self df self) by (unfold loaded; by rewrite Hdf).
  rewrite (bool_decide_eq_true_2 _ Hcol). cbn [negb].
  erewrite bind_ok by (unfold lift; rewrite Hsv; reflexivity).
  reflexivity.
Qed.

(** The records of the top 200 of a well-formed dataset: as many as the
    rows, up to 200, each with the columns as its keys. *)
Lemma top_200_keys (sort_by : string) (ascending : bool)
    (df : pd.DataFrame) (self : analyser Model) :
  cleaned_dataset self = Some df ->
  well_formed df ->
  sort_by ∈ pd.columns df ->
  pd.comparable
    (map (fun r => pd.at_ (pd.columns df) r sort_by)
       (List.filter (fun r => negb (pd.isna (pd.at_ (pd.columns df) r sort_by)))
          (pd.rows df))) = true ->
  exists sorted_rows,
    top sort_by ascending self
    = (Ok (map (pd.row_dict (pd.columns df)) (take 200 sorted_rows)), self)
    /\ sorted_rows ≡ₚ pd.rows df
    /\ Forall (fun d : dict => dom d = list_to_set (pd.columns df)
                               /\ size d = length (pd.columns df))
         (map (pd.row_dict (pd.columns df)) (take 200 sorted_rows)).
Proof.
  intros Hdf [Hnd Hlen] Hcol Hcmp.
  destruct (top_200_rows sort_by ascending df self Hdf Hcol Hcmp)
    as (sorted_rows & Htop & Hperm).
  exists sorted_rows. split; [exact Htop|]. split; [done|].
  apply Forall_fmap, Forall_forall. intros r Hr. apply row_dict_keys; [done|].
  rewrite Forall_forall in Hlen. apply Hlen. rewrite <- Hperm.
  by apply (subseteq_take 200).
Qed.

(** X15. The records returned are as many as the rows of the dataset, up to 200;
    each has exactly the columns of the dataset as its keys; and a dataset
    of at most 200 rows is returned whole, rearranged. *)
Theorem top_200_records_have_columns (sort_by : string) (ascending : bool)
    (df : pd.DataFrame) (self : analyser Model) :
  cleaned_dataset self = Some df ->
  well_formed df ->
  sort_by ∈ pd.columns df ->
  pd.comparable
    (map (fun r => pd.at_ (pd.columns df) r sort_by)
       (List.filter (fun r => negb (pd.isna (pd.at_ (pd.columns df) r sort_by)))
          (pd.rows df))) = true ->
  exists recs,
    top sort_by ascending self = (Ok recs, self)
    /\ length recs = Nat.min 200 (length (pd.rows df))
    /\ Forall (fun d : dict => dom d = list_to_set (pd.columns df)
                               /\ size d = length (pd.columns df)) recs
    /\ ((length (pd.rows df) <= 200)%nat -> recs ≡ₚ pd.to_dict_records df).
Proof.
  intros Hdf Hwf Hcol Hcmp.
  destruct (top_200_keys sort_by ascending df self Hdf Hwf Hcol Hcmp)
    as (sorted_rows & Htop & Hperm & Hkeys).
  eexists. split; [exact Htop|].
  split. { by rewrite length_map, length_take, Hperm. }
  split; [done|].
  intros Hsmall. rewrite take_ge by (rewrite Hperm; lia).
  unfold pd.to_dict_records. by rewrite Hperm.
Qed.

(** The top 200 of a non-empty dataset that has a column of names is a
    list that the batch can run on. *)
Lemma top_200_batchable (sort_by : string) (ascending : bool)
    (df : pd.DataFrame) (self : analyser Model) :
  cleaned_dataset self = Some df ->
  well_formed df ->
  "Name" ∈ pd.columns df ->
  pd.rows df <> [] ->
  sort_by ∈ pd.columns df ->
  pd.comparable
    (map (fun r => pd.at_ (pd.columns df) r sort_by)
       (List.filter (fun r => negb (pd.isna (pd.at_ (pd.columns df) r sort_by)))
          (pd.rows df))) = true ->
  exists recs,
    top sort_by ascending self = (Ok recs, self)
    /\ recs <> []
    /\ (length recs <= 200)%nat
    /\ Forall has_name recs
    /\ Forall (fun d : dict => size d = length (pd.columns df)) recs.
Proof.
  intros Hdf Hwf Hname Hrows Hcol Hcmp.
  destruct (top_200_keys sort_by ascending df self Hdf Hwf Hcol Hcmp)
    as (sorted_rows & Htop & Hperm & Hkeys).
  eexists. split; [exact Htop|]. split; [|split; [|split]].
  2:{ rewrite length_map, length_take. lia. }
  - intros E. apply (f_equal length) in E.
    rewrite length_map, length_take, Hperm in E.
    destruct (pd.rows df); [done | simpl in E; lia].
  - eapply Forall_impl; [exact Hkeys|]. intros d [Hd _]. unfold has_name.
    apply (elem_of_dom (D := gset string)). rewrite Hd. by apply elem_of_list_to_set.
  - eapply Forall_impl; [exact Hkeys|]. by intros d [_ ?].
Qed.

(** The total of a run over at most 200 games, when no count is above
    [2^1000] in absolute value, is one that the final division takes. *)
Lemma total_of_200 (games : list dict) (m : Model) :
  (length games <= 200)%nat ->
  (forall m prompt text m' k,
      generate_content m prompt = (Ok text, m') -> parse_count text = Ok k ->
      Z.abs k <= 2 ^ 1000) ->
  Z.abs (sum_Z (map counted (outcomes Model generate_content format_number games m)))
  < 2 ^ 1023.
Proof.
  intros Hlen Hbound.
  pose proof (total_bound generate_content format_number (2 ^ 1000) games
                ltac:(apply Z.pow_nonneg; lia) Hbound m) as H.
  assert (Hpow : 200 * 2 ^ 1000 < 2 ^ 1023) by (vm_compute; reflexivity).
  assert (0 < 2 ^ 1000) by (apply Z.pow_pos_nonneg; lia).
  nia.
Qed.

(** X16. The batch over the top 200 of a loaded, non-empty dataset returns,
    when no count that the model gives is above [2^1000] in absolute
    value: no record lacks a name, the denominator is not 0 and the total
    of at most 200 such counts is one that the division takes.  The ground
    truth that it prints is the number of records times the number of
    columns of the dataset. *)
Theorem batch_on_top_200 (sort_by : string) (ascending : bool)
    (df : pd.DataFrame) (self : analyser Model) :
  cleaned_dataset self = Some df ->
  well_formed df ->
  "Name" ∈ pd.columns df ->
  pd.rows df <> [] ->
  sort_by ∈ pd.columns df ->
  pd.comparable
    (map (fun r => pd.at_ (pd.columns df) r sort_by)
       (List.filter (fun r => negb (pd.isna (pd.at_ (pd.columns df) r sort_by)))
          (pd.rows df))) = true ->
  (forall m prompt text m' k,
      generate_content m prompt = (Ok text, m') -> parse_count text = Ok k ->
      Z.abs k <= 2 ^ 1000) ->
  exists recs s self' before total rest,
    top sort_by ascending self = (Ok recs, self)
    /\ batch recs self = (Ok s, self')
    /\ stdout self'
       = before ++ [Blank; TotalFound total;
                    GroundTruth (Z.of_nat (length recs) * Z.of_nat (length (pd.columns df)))]
         ++ rest.
Proof.
  intros Hdf Hwf Hname Hrows Hcol Hcmp Hbound.
  destruct (top_200_batchable sort_by ascending df self Hdf Hwf Hname Hrows Hcol Hcmp)
    as (recs & Htop & Hne & Hlen & Hn & Hsize).
  destruct (final_division recs _ Hne Hn (total_of_200 recs (model self) Hlen Hbound))
    as [average Hdiv].
  destruct (calculate_spec generate_content format_number recs self average
              (ex_intro _ df Hdf) Hn Hdiv)
    as (self' & rest & Hc & _ & _ & ls & Ho & _).
  eexists recs, _, self', (stdout self ++ ls), _, rest.
  split; [exact Htop|]. split; [exact Hc|].
  rewrite Ho, <- app_assoc. by rewrite (sum_sizes (length (pd.columns df))).
Qed.

End Pipeline.

Lemma top_200_records_have_columns_witness :
  exists recs,
    get_top_200_list Script.Model Script.stable_sort "Rating Average" false
      (Script.loaded_analyser [])
    = (Ok recs, Script.loaded_analyser [])
    /\ length recs = 3%nat.
Proof.
  destruct (top_200_records_have_columns Script.stable_sort stable_sort_sorts
              "Rating Average" false (clean Script.table) (Script.loaded_analyser []))
    as (recs & H & Hlen & _).
  - reflexivity.
  - exact script_table_well_formed.
  - apply (bool_decide_unpack _). vm_compute. exact I.
  - reflexivity.
  - exists recs. split; [exact H | exact Hlen].
Defined.

Lemma batch_on_top_200_witness :
  exists recs s self',
    get_top_200_list unit Script.stable_sort "Rating Average" false Script.steady_analyser
    = (Ok recs, Script.steady_analyser)
    /\ calculate_total_applicable_mechanics unit (Script.steady "1")
         Script.format_number recs Script.steady_analyser
       = (Ok s, self').
Proof.
  destruct (batch_on_top_200 (Script.steady "1") Script.format_number
              Script.stable_sort stable_sort_sorts
              "Rating Average" false (clean Script.table) Script.steady_analyser)
    as (recs & s & self' & _ & _ & _ & H1 & H2 & _).
  - reflexivity.
  - exact script_table_well_formed.
  - apply (bool_decide_unpack _). vm_compute. exact I.
  - discriminate.
  - apply (bool_decide_unpack _). vm_compute. exact I.
  - reflexivity.
  - intros m prompt text m' k Hg Hk. injection Hg as <- <-.
    vm_compute in Hk. injection Hk as <-. vm_compute. discriminate.
  - exists recs, s, self'. split; [exact H1 | exact H2].
Defined.

(** ** The script *)

Lemma clean_well_formed (df : pd.DataFrame) : well_formed df -> well_formed (clean df).
Proof.
  intros [Hnd Hlen]. split; [done|]. cbn [clean pd.rows pd.columns].
  rewrite Forall_forall in Hlen |- *. intros r [Hr _]%elem_of_filter_bool. auto.
Qed.

Lemma required_columns_elem (df : pd.DataFrame) :
  has_required_columns df ->
  "Name" ∈ pd.columns df /\ "Year Published" ∈ pd.columns df /\ "Mechanics" ∈ pd.columns df.
Proof.
  unfold has_required_columns, required_columns. intros H.
  apply Forall_cons in H as [H1 H]. apply Forall_cons in H as [H2 H].
  by apply Forall_cons in H as [H3 _].
Qed.

Section Script_main.

Context {Model : Type}.
Variable generate_content : Model -> string -> result string * Model.
Variable read_csv : string -> string -> result pd.DataFrame.
Variable format_number : Q -> string.
Variable quicksort : forall A : Type, (A -> A -> bool) -> list A -> list A.
Hypothesis quicksort_sorts : sorts quicksort.

Local Abbreviation run_main :=
  (main Model generate_content read_csv format_number quicksort).
Local Abbreviation verify := (verify_mechanics_with_genai Model generate_content).

(** The single-game method on an answer that parses to a count below
    [2^1023] in absolute value: it returns, and the cleaned dataset
    stays. *)
Lemma verify_returns (game_name : string) (df : pd.DataFrame) (self : analyser Model)
    (r : list cell) (rest : list (list cell)) (mechanics text : string) (m' : Model)
    (k : Z) :
  cleaned_dataset self = Some df ->
  "Name" ∈ pd.columns df -> "Mechanics" ∈ pd.columns df ->
  List.filter (fun r => pd.eq_str (pd.at_ (pd.columns df) r "Name") game_name) (pd.rows df)
  = r :: rest ->
  pd.at_ (pd.columns df) r "Mechanics" = Str mechanics ->
  generate_content (model self) (make_prompt game_name (prompt_mechanics mechanics))
  = (Ok text, m') ->
  parse_count text = Ok k ->
  Z.abs k < 2 ^ 1023 ->
  exists accuracy self',
    verify game_name self = (Ok accuracy, self')
    /\ cleaned_dataset self' = Some df
    /\ model self' = m'.
Proof.
  intros Hdf Hname Hmech Hrows Hcell Hgen Hparse Hsmall.
  rewrite (verify_asks generate_content game_name df self r rest mechanics) by done.
  erewrite bind_ok by (unfold ask; rewrite Hgen; reflexivity).
  erewrite bind_ok by (unfold lift; rewrite Hparse; reflexivity).
  pose proof (count_nonneg ","%char mechanics) as Hnn.
  destruct (truediv_ok k (Py.count ","%char mechanics + 1)) as [accuracy Hdiv]; [lia|done|].
  erewrite bind_ok by (unfold lift; rewrite Hdiv; reflexivity).
  do 2 eexists. split; [reflexivity|]. done.
Qed.

(** X17. The script stops at the first failure, before the model is asked: with
    no file it ends with [FileNotFoundError]; with a dataset that holds no
    game named Gloomhaven it ends with the [ValueError] of the single-game
    method.  In both cases nothing is written. *)
Theorem main_stops_before_the_model (key : string) (m : Model) :
  (forall msg, read_csv "dataset.csv" ";" = Err (FileNotFoundError msg) ->
     run_main key m
     = (Err (FileNotFoundError "File not found: dataset.csv"),
        init Model "dataset.csv" key m))
  /\ (forall df, read_csv "dataset.csv" ";" = Ok df -> has_required_columns df ->
        (forall r, r ∈ pd.rows (clean df) ->
                   pd.at_ (pd.columns df) r "Name" <> Str "Gloomhaven") ->
        exists self',
          run_main key m
          = (Err (ValueError "Game 'Gloomhaven' not found in the dataset."), self')
          /\ model self' = m /\ stdout self' = []).
Proof.
  split.
  - intros msg Hr. unfold main.
    erewrite bind_err; [done|].
    by rewrite (load_file_not_found read_csv ";" msg (init Model "dataset.csv" key m) Hr).
  - intros df Hr Hc Habsent. unfold main.
    erewrite bind_ok
      by exact (load_cleans read_csv ";" df (init Model "dataset.csv" key m) Hr Hc).
    destruct (required_columns_elem df Hc) as (Hname & _ & _).
    set (self1 := set_cleaned_dataset Model (clean df) _).
    assert (Hv : verify "Gloomhaven" self1
                 = (Err (ValueError "Game 'Gloomhaven' not found in the dataset."), self1)).
    { unfold verify_mechanics_with_genai.
      erewrite bind_ok by reflexivity.
      unfold pd.getitem at 1. cbn [clean pd.columns].
      rewrite (bool_decide_eq_true_2 _ Hname).
      erewrite bind_ok by reflexivity.
      unfold pd.loc, pd.empty. cbn [pd.rows pd.columns].
      rewrite select_map_filter_on.
      assert (Hnone : List.filter
                        (fun r => pd.eq_str (pd.at_ (pd.columns df) r "Name") "Gloomhaven")
                        (pd.rows (clean df)) = []).
      { apply filter_nil_iff. intros r Hr'. specialize (Habsent r Hr').
        destruct (pd.at_ (pd.columns df) r "Name") as [| |t]; try done.
        simpl. apply bool_decide_eq_false_2. congruence. }
      by rewrite Hnone. }
    exists self1. rewrite (bind_err _ _ _ _ _ Hv). done.
Qed.

(** X18. When the dataset holds Gloomhaven with a string of mechanics, the
    model's answer for it parses, and no count that the model gives is
    above [2^1000] in absolute value, the script runs to its end: neither
    division overflows, and the batch over the default top 200 can neither
    meet a record without a name nor divide by 0, whatever the model
    answers for the other games. *)
Theorem main_returns (key : string) (m m' : Model) (df : pd.DataFrame)
    (r : list cell) (rest : list (list cell)) (mechanics text : string) (k : Z) :
  read_csv "dataset.csv" ";" = Ok df ->
  has_required_columns df ->
  well_formed df ->
  List.filter (fun r => pd.eq_str (pd.at_ (pd.columns df) r "Name") "Gloomhaven")
    (pd.rows (clean df)) = r :: rest ->
  pd.at_ (pd.columns df) r "Mechanics" = Str mechanics ->
  generate_content m (make_prompt "Gloomhaven" (prompt_mechanics mechanics)) = (Ok text, m') ->
  parse_count text = Ok k ->
  (forall m prompt text m' k,
      generate_content m prompt = (Ok text, m') -> parse_count text = Ok k ->
      Z.abs k <= 2 ^ 1000) ->
  "Rating Average" ∈ pd.columns df ->
  pd.comparable
    (map (fun r => pd.at_ (pd.columns df) r "Rating Average")
       (List.filter (fun r => negb (pd.isna (pd.at_ (pd.columns df) r "Rating Average")))
          (pd.rows (clean df)))) = true ->
  exists s self', run_main key m = (Ok s, self').
Proof.
  intros Hr Hc Hwf Hrows Hcell Hgen Hparse Hbound Hrating Hcmp. unfold main.
  erewrite bind_ok
    by exact (load_cleans read_csv ";" df (init Model "dataset.csv" key m) Hr Hc).
  destruct (required_columns_elem df Hc) as (Hname & _ & Hmech).
  set (self1 := set_cleaned_dataset Model (clean df) _).
  assert (Hk : Z.abs k < 2 ^ 1023).
  { pose proof (Hbound _ _ _ _ _ Hgen Hparse) as Hk.
    assert (2 ^ 1000 < 2 ^ 1023) by (vm_compute; reflexivity). lia. }
  destruct (verify_returns "Gloomhaven" (clean df) self1 r rest mechanics text m' k)
    as (accuracy & self2 & Hv & Hdf2 & _); try done.
  erewrite bind_ok by exact Hv.
  assert (Hne : pd.rows (clean df) <> []).
  { intros E. by rewrite E in Hrows. }
  destruct (top_200_batchable quicksort quicksort_sorts
              "Rating Average" false (clean df) self2 Hdf2 (clean_well_formed df Hwf)
              Hname Hne Hrating Hcmp)
    as (recs & Htop & Hrecs & Hlen & Hn & _).
  destruct (final_division recs _ Hrecs Hn
              (total_of_200 generate_content format_number recs (model self2) Hlen Hbound))
    as [average Hdiv].
  destruct (calculate_spec generate_content format_number recs self2 average
              (ex_intro _ (clean df) Hdf2) Hn Hdiv)
    as (self' & rest' & Hb & _).
  unfold get_top_200_list_default. erewrite bind_ok by exact Htop.
  eexists _, self'. exact Hb.
Qed.

End Script_main.

Lemma main_stops_before_the_model_witness :
  main Script.Model Script.generate_content (fun _ _ => Err (FileNotFoundError "dataset.csv"))
    Script.format_number Script.stable_sort "key" [Ok "1"]
  = (Err (FileNotFoundError "File not found: dataset.csv"),
     init Script.Model "dataset.csv" "key" [Ok "1"])
  /\ exists self',
       main Script.Model Script.generate_content Script.read_csv
         Script.format_number Script.stable_sort "key" [Ok "1"]
       = (Err (ValueError "Game 'Gloomhaven' not found in the dataset."), self')
       /\ model self' = [Ok "1"] /\ stdout self' = [].
Proof.
  split.
  - apply (proj1 (main_stops_before_the_model Script.generate_content
                    (fun _ _ => Err (FileNotFoundError "dataset.csv"))
                    Script.format_number Script.stable_sort "key" [Ok "1"]) "dataset.csv").
    reflexivity.
  - apply (proj2 (main_stops_before_the_model Script.generate_content Script.read_csv
                    Script.format_number Script.stable_sort "key" [Ok "1"]) Script.table).
    + reflexivity.
    + exact script_table_columns.
    + intros r Hr. repeat (apply elem_of_cons in Hr as [->|Hr]; [discriminate|]).
      by apply elem_of_nil in Hr.
Defined.

Lemma main_returns_witness :
  exists s self',
    main unit (Script.steady "2") (fun _ _ => Ok gloomhaven_table)
      Script.format_number Script.stable_sort "key" tt
    = (Ok s, self').
Proof.
  apply (main_returns (Script.steady "2") (fun _ _ => Ok gloomhaven_table)
           Script.format_number Script.stable_sort stable_sort_sorts "key" tt tt
           gloomhaven_table
           [Str "Gloomhaven"; Num (inject_Z 2017); Str "Grid Movement,Hand Management";
            Num (87 # 10)]
           [] "Grid Movement,Hand Management" "2" 2).
  - reflexivity.
  - repeat constructor.
  - split; apply (bool_decide_unpack _); vm_compute; exact I.
  - reflexivity.
  - reflexivity.
  - reflexivity.
  - reflexivity.
  - intros m prompt text m' k Hg Hk. injection Hg as <- <-.
    vm_compute in Hk. injection Hk as <-. vm_compute. discriminate.
  - apply (bool_decide_unpack _). vm_compute. exact I.
  - reflexivity.
Defined.

(** ** The list of mechanics in the prompt *)

Lemma prefix_cons (a b : ascii) (s1 s2 : string) :
  String.prefix (String a s1) (String b s2)
  = if Ascii.eqb b a then String.prefix s1 s2 else false.
Proof.
  with_strategy transparent [String.prefix] (cbn [String.prefix]).
  destruct (ascii_dec a b) as [->|Hne].
  - by rewrite Ascii.eqb_refl.
  - destruct (Ascii.eqb_spec b a); congruence.
Qed.

Lemma prefix_nil (s : string) : String.prefix "" s = true.
Proof. with_strategy transparent [String.prefix] (by destruct s). Qed.

Lemma replace_from_cons (old new : string) (c : ascii) (s : string) :
  Py.replace_from old new O (String c s)
  = if String.prefix old (String c s)
    then new +:+ Py.replace_from old new (String.length old - 1) s
    else String c (Py.replace_from old new O s).
Proof. reflexivity. Qed.

(** Replacing a string that does not occur changes nothing. *)
Lemma replace_absent (old new s : string) :
  occurs old s = false -> Py.replace old new s = s.
Proof.
  unfold Py.replace. induction s as [|c s IH]; [done|].
  cbn [occurs]. intros [Hp Ho]%orb_false_elim.
  rewrite replace_from_cons, Hp. by rewrite IH.
Qed.

Lemma join_cons (sep : string) (c : ascii) (h : string) (t : list string) :
  join sep (String c h :: t) = String c (join sep (h :: t)).
Proof. by destruct t. Qed.

(** [mechanics.replace(",", ", ")] is [", ".join(mechanics.split(","))]: the
    first rewriting of the prompt lists the entries that the batch
    splits. *)
Lemma replace_comma_joins_split (s : string) :
  Py.replace "," ", " s = join ", " (Py.split ","%char s).
Proof.
  unfold Py.replace. induction s as [|c s IH]; [done|].
  pose proof (split_nonempty ","%char s) as Hne.
  rewrite replace_from_cons, prefix_cons, prefix_nil. cbn [Py.split String.length Nat.sub].
  destruct (Ascii.eqb c ",") eqn:E.
  - rewrite IH. by destruct (Py.split ","%char s).
  - rewrite IH. destruct (Py.split ","%char s) as [|h t]; [done|].
    by rewrite join_cons.
Qed.

(** X19. When the words " and " and " or " do not occur in the comma-rewritten
    string, the list of mechanics in the prompt is the split entries joined
    by ", ". *)
Theorem prompt_mechanics_joins_split (mechanics : string) :
  occurs " and " (Py.replace "," ", " mechanics) = false ->
  occurs " or " (Py.replace "," ", " mechanics) = false ->
  prompt_mechanics mechanics = join ", " (Py.split ","%char mechanics).
Proof.
  intros Hand Hor. unfold prompt_mechanics.
  rewrite (replace_absent " and ") by done.
  rewrite (replace_absent " or ") by done.
  apply replace_comma_joins_split.
Qed.

Lemma replace_absent_witness : Py.replace " and " ", " "Dice Rolling" = "Dice Rolling".
Proof. apply (replace_absent " and " ", " "Dice Rolling"). reflexivity. Defined.

Lemma prompt_mechanics_joins_split_witness :
  prompt_mechanics "Drafting,Worker Placement"
  = join ", " (Py.split ","%char "Drafting,Worker Placement").
Proof. apply (prompt_mechanics_joins_split "Drafting,Worker Placement"); reflexivity. Defined.

(** The rewriting is by substring: an " and " that the comma rewriting
    itself brings about is replaced too. *)
Example prompt_rewrites_inside_entries :
  prompt_mechanics "A,and B" = "A,, B"
  /\ prompt_mechanics "Hand Management" = "Hand Management"
  /\ prompt_mechanics "Rock or Paper and Scissors" = "Rock, Paper, Scissors".
Proof. repeat split. Qed.
